(** * WPWatcher: the WPScan output parser ([wpwatcher/parser.py])

    A shallow embedding of the parser's classification code and the
    properties of its three severity buckets.

    Conventions of the embedding.
    - A Python [str] is a [string] of ASCII code points; bytes above 127 are
      treated as ordinary characters (neither white space, nor line breaks,
      nor letters).
    - A decoded JSON document is a [pyval]; JSON numbers are integers (floats
      are not represented).  The association list of a [PDict] lists the keys
      in insertion order, pairwise distinct, as [json.loads] builds it.
    - A Python call that may raise returns a [result]; a method that may fall
      off its end without [return] yields [option], [None] standing for
      Python's [None].
    - The interpreter is CPython 3.11, the last release in which a list
      comprehension is a function of its own: zero-argument [super()] in the
      element expression of a comprehension raises [TypeError] there, while
      the outermost iterable is evaluated in the enclosing method.
    - Every function is embedded as it is written.  The call
      [super().__init__(self, data)] of the constructors hands [self] twice
      to the initialiser of the base class and raises [TypeError]; a global
      name that the module never binds raises [NameError] where it is looked
      up.  The class [User], whose method [get_alerts] has a docstring
      closed by four quotes, is left out.
    - No class of the module defines [__bool__] or [__len__]: an instance is
      always true in a condition ([obj_truthy]).
    - The methods are stated on objects given by their attributes; no two
      attributes share a mutable value.  An augmented assignment on a list
      extends the list in place: [Vulnerability.rendered] and [WPItem.warned]
      give the object as a returning call leaves it. *)

From Stdlib Require Import String Ascii List ZArith Lia Bool Arith.
From Stdlib Require Import DecimalString.
Import ListNotations.

Local Open Scope list_scope.
Local Open Scope string_scope.

(** ** Python strings *)

Module PyStr.

Definition LF : ascii := "010"%char.
Definition CR : ascii := "013"%char.
Definition ESC : ascii := "027"%char.

(** The one-character string holding a line feed. *)
Definition NL : string := String LF EmptyString.

Definition is_empty (s : string) : bool :=
  match s with EmptyString => true | String _ _ => false end.

(** [s.startswith(p)]. *)
Fixpoint startswith (p s : string) : bool :=
  match p with
  | EmptyString => true
  | String a p' =>
      match s with
      | EmptyString => false
      | String b s' => if Ascii.eqb a b then startswith p' s' else false
      end
  end.

(** [needle in hay] on two [str]. *)
Fixpoint contains (needle hay : string) : bool :=
  if startswith needle hay then true
  else match hay with
       | EmptyString => false
       | String _ t => contains needle t
       end.

(** [str.isspace] on one ASCII character: tab to carriage return, the four
    separators 0x1c-0x1f and the space. *)
Definition is_space (c : ascii) : bool :=
  let n := nat_of_ascii c in
  ((9 <=? n)%nat && (n <=? 13)%nat) || ((28 <=? n)%nat && (n <=? 32)%nat).

(** The characters at which [str.splitlines] breaks a line. *)
Definition is_linebreak (c : ascii) : bool :=
  let n := nat_of_ascii c in
  ((10 <=? n)%nat && (n <=? 13)%nat) || ((28 <=? n)%nat && (n <=? 30)%nat).

Fixpoint lstrip (s : string) : string :=
  match s with
  | EmptyString => EmptyString
  | String c t => if is_space c then lstrip t else s
  end.

Fixpoint rstrip (s : string) : string :=
  match s with
  | EmptyString => EmptyString
  | String c t =>
      let t' := rstrip t in
      if is_space c && is_empty t' then EmptyString else String c t'
  end.

(** [s.strip()]. *)
Definition strip (s : string) : string := rstrip (lstrip s).

(** [s.splitlines()]: a carriage return followed by a line feed is one
    boundary, and a final boundary opens no further line. *)
Fixpoint splitlines (s : string) : list string :=
  match s with
  | EmptyString => []
  | String c t =>
      if is_linebreak c then
        EmptyString ::
          match t with
          | String c' t' =>
              if Ascii.eqb c CR && Ascii.eqb c' LF then splitlines t'
              else splitlines t
          | EmptyString => []
          end
      else
        match splitlines t with
        | [] => [String c EmptyString]
        | l :: ls => String c l :: ls
        end
  end.

(** [sep.join(l)]. *)
Definition join (sep : string) (l : list string) : string := String.concat sep l.

Definition is_digit (c : ascii) : bool :=
  let n := nat_of_ascii c in (48 <=? n)%nat && (n <=? 57)%nat.

(** Length of the match of [(\x1b|\[[0-9][0-9]?m)] at the head of [s], or 0
    when the pattern does not match there. *)
Definition color_match (s : string) : nat :=
  match s with
  | String c t =>
      if Ascii.eqb c ESC then 1
      else if Ascii.eqb c "["%char then
        match t with
        | String d1 (String d2 (String m t2)) =>
            if is_digit d1 && is_digit d2 && Ascii.eqb m "m"%char then 4
            else if is_digit d1 && Ascii.eqb d2 "m"%char then 3
            else 0
        | String d1 (String d2 EmptyString) =>
            if is_digit d1 && Ascii.eqb d2 "m"%char then 3 else 0
        | _ => 0
        end
      else 0
  | EmptyString => 0
  end.

(** [re.sub(r'(\x1b|\[[0-9][0-9]?m)', '', s)]: [skip] counts the characters
    of the current match that are still to be dropped. *)
Fixpoint re_sub_color_from (skip : nat) (s : string) : string :=
  match s with
  | EmptyString => EmptyString
  | String c t =>
      match skip with
      | S k => re_sub_color_from k t
      | O =>
          match color_match s with
          | O => String c (re_sub_color_from 0 t)
          | S k => re_sub_color_from k t
          end
      end
  end.

Definition re_sub_color (s : string) : string := re_sub_color_from 0 s.

Definition is_upper (c : ascii) : bool :=
  let n := nat_of_ascii c in (65 <=? n)%nat && (n <=? 90)%nat.
Definition is_lower (c : ascii) : bool :=
  let n := nat_of_ascii c in (97 <=? n)%nat && (n <=? 122)%nat.
Definition to_upper (c : ascii) : ascii :=
  if is_lower c then ascii_of_nat (nat_of_ascii c - 32) else c.
Definition to_lower (c : ascii) : ascii :=
  if is_upper c then ascii_of_nat (nat_of_ascii c + 32) else c.

(** [s.title()]: a letter that follows a letter is lowered, any other letter
    is raised. *)
Fixpoint title_from (prev_cased : bool) (s : string) : string :=
  match s with
  | EmptyString => EmptyString
  | String c t =>
      let cased := is_upper c || is_lower c in
      String (if prev_cased then to_lower c else to_upper c) (title_from cased t)
  end.

Definition title (s : string) : string := title_from false s.

(** The characters of a string, as [for c in s] yields them. *)
Fixpoint chars (s : string) : list string :=
  match s with
  | EmptyString => []
  | String c t => String c EmptyString :: chars t
  end.

End PyStr.

(** ** Exceptions and Python values *)

Inductive exn : Type :=
| ValueError | TypeError | AttributeError | KeyError | IndexError
| UnboundLocalError | NameError.

Inductive result (A : Type) : Type :=
| Ok (a : A)
| Raise (e : exn).
Arguments Ok {A} a.
Arguments Raise {A} e.

Definition bind {A B : Type} (r : result A) (k : A -> result B) : result B :=
  match r with
  | Ok a => k a
  | Raise e => Raise e
  end.

Notation "x <- r ;; k" := (bind r (fun x => k))
  (at level 61, r at next level, right associativity).

(** A [for] loop whose body may raise, threading the loop state. *)
Fixpoint for_each {A S : Type} (l : list A) (body : S -> A -> result S) (s : S)
  : result S :=
  match l with
  | [] => Ok s
  | x :: r => s' <- body s x ;; for_each r body s'
  end.

(** A list comprehension whose element expression may raise. *)
Fixpoint map_r {A B : Type} (f : A -> result B) (l : list A) : result (list B) :=
  match l with
  | [] => Ok []
  | x :: r => y <- f x ;; ys <- map_r f r ;; Ok (y :: ys)
  end.

(** A call that hands [given] positional arguments to a function of
    [declared] parameters. *)
Definition call_with (declared given : nat) : result unit :=
  if Nat.eqb declared given then Ok tt else Raise TypeError.

(** [super().__init__(self, data)]: every initialiser of the module declares
    [self] and [data]; the bound method receives [self], [self] and [data],
    and the body [init] of the base class is not entered. *)
Definition super_init {A D : Type} (init : D -> result A) (data : D) : result A :=
  _ <- call_with 2 3 ;; init data.

(** The look-up of a global name that the module never binds. *)
Definition undefined_global {A : Type} : result A := Raise NameError.

(** Zero-argument [super()] in the element expression of a list
    comprehension, asked for [method]: the first argument of the function of
    the comprehension is its iterator, not the instance. *)
Definition super_in_comprehension {A : Type} (method : A) : result A :=
  Raise TypeError.

(** [l[i]] on a list. *)
Definition item_at {A : Type} (l : list A) (i : nat) : result A :=
  match nth_error l i with
  | Some x => Ok x
  | None => Raise IndexError
  end.

Module PyVal.
Import PyStr.

(** What [json.loads] returns. *)
#[warnings="-register-all"] Inductive pyval : Type :=
| PNone
| PBool (b : bool)
| PInt (z : Z)
| PStr (s : string)
| PList (l : list pyval)
| PDict (d : list (string * pyval)).

(** The truth value of a condition. *)
Definition truthy (v : pyval) : bool :=
  match v with
  | PNone => false
  | PBool b => b
  | PInt z => negb (z =? 0)%Z
  | PStr s => negb (is_empty s)
  | PList l => match l with [] => false | _ => true end
  | PDict d => match d with [] => false | _ => true end
  end.

(** Instances of the module's classes have neither [__bool__] nor [__len__]. *)
Definition obj_truthy {A : Type} (_ : A) : bool := true.

Fixpoint lookup (k : string) (d : list (string * pyval)) : option pyval :=
  match d with
  | [] => None
  | (k', v) :: r => if String.eqb k k' then Some v else lookup k r
  end.

(** [d.get(k, default)] with a [str] key. *)
Definition get (d : pyval) (k : string) (default : pyval) : result pyval :=
  match d with
  | PDict kv => Ok (match lookup k kv with Some v => v | None => default end)
  | _ => Raise AttributeError
  end.

(** [d.get(k, default)] with any key: the keys of a decoded object are
    strings, lists and dicts are not hashable. *)
Definition get_v (d : pyval) (k : pyval) (default : pyval) : result pyval :=
  match d with
  | PDict kv =>
      match k with
      | PStr s => Ok (match lookup s kv with Some v => v | None => default end)
      | PList _ | PDict _ => Raise TypeError
      | _ => Ok default
      end
  | _ => Raise AttributeError
  end.

Definition as_index (k : pyval) : option Z :=
  match k with
  | PInt z => Some z
  | PBool b => Some (if b then 1 else 0)%Z
  | _ => None
  end.

(** The position a (possibly negative) index denotes in a sequence of
    length [n]. *)
Definition position (n : nat) (i : Z) : option nat :=
  let i' := (if i <? 0 then i + Z.of_nat n else i)%Z in
  if ((0 <=? i') && (i' <? Z.of_nat n))%Z then Some (Z.to_nat i') else None.

(** [v[k]]. *)
Definition getitem (v k : pyval) : result pyval :=
  match v with
  | PDict kv =>
      match k with
      | PStr s => match lookup s kv with Some x => Ok x | None => Raise KeyError end
      | PList _ | PDict _ => Raise TypeError
      | _ => Raise KeyError
      end
  | PList l =>
      match as_index k with
      | Some i =>
          match position (List.length l) i with
          | Some n => match nth_error l n with Some x => Ok x | None => Raise IndexError end
          | None => Raise IndexError
          end
      | None => Raise TypeError
      end
  | PStr s =>
      match as_index k with
      | Some i =>
          match position (String.length s) i with
          | Some n =>
              match nth_error (chars s) n with
              | Some c => Ok (PStr c)
              | None => Raise IndexError
              end
          | None => Raise IndexError
          end
      | None => Raise TypeError
      end
  | _ => Raise TypeError
  end.

(** The elements [for x in v] runs through. *)
Definition iter (v : pyval) : result (list pyval) :=
  match v with
  | PList l => Ok l
  | PDict kv => Ok (map (fun p => PStr (fst p)) kv)
  | PStr s => Ok (map PStr (chars s))
  | _ => Raise TypeError
  end.

(** [v == s] for a [str] constant [s]. *)
Definition eq_str (v : pyval) (s : string) : bool :=
  match v with
  | PStr s' => String.eqb s' s
  | _ => false
  end.

(** [s in v] for a [str] constant [s]. *)
Definition contains_str (s : string) (v : pyval) : result bool :=
  match v with
  | PDict kv => Ok (match lookup s kv with Some _ => true | None => false end)
  | PList l => Ok (existsb (fun x => eq_str x s) l)
  | PStr t => Ok (contains s t)
  | _ => Raise TypeError
  end.

Definition hex_digit (n : nat) : ascii :=
  ascii_of_nat (if (n <? 10)%nat then 48 + n else 87 + n).

(** [repr] of a [str]: single quotes unless the text holds a single quote and
    no double quote. *)
Definition SQ : ascii := "039"%char.
Definition DQ : ascii := "034"%char.
Definition BS : ascii := "092"%char.

Fixpoint has_char (q : ascii) (s : string) : bool :=
  match s with
  | EmptyString => false
  | String c t => Ascii.eqb c q || has_char q t
  end.

Fixpoint repr_body (q : ascii) (s : string) : string :=
  match s with
  | EmptyString => EmptyString
  | String c t =>
      let n := nat_of_ascii c in
      (if Ascii.eqb c q || Ascii.eqb c BS then String BS (String c EmptyString)
       else if (n =? 9)%nat then String BS "t"
       else if (n =? 10)%nat then String BS "n"
       else if (n =? 13)%nat then String BS "r"
       else if (n <? 32)%nat || (n =? 127)%nat then
         String BS (String "x"%char
           (String (hex_digit (n / 16)) (String (hex_digit (n mod 16)) EmptyString)))
       else String c EmptyString) ++ repr_body q t
  end.

Definition repr_str (s : string) : string :=
  let q := if has_char SQ s && negb (has_char DQ s) then DQ else SQ in
  String q (repr_body q s ++ String q EmptyString).

Definition str_of_Z (z : Z) : string := NilZero.string_of_int (Z.to_int z).

(** [repr(v)]. *)
Fixpoint repr (v : pyval) : string :=
  match v with
  | PNone => "None"
  | PBool b => if b then "True" else "False"
  | PInt z => str_of_Z z
  | PStr s => repr_str s
  | PList l => "[" ++ join ", " (map repr l) ++ "]"
  | PDict d =>
      "{" ++ join ", " (map (fun p => repr_str (fst p) ++ ": " ++ repr (snd p)) d) ++ "}"
  end.

(** [str(v)], which is also ['{}'.format(v)] and ['%s' % v]. *)
Definition str (v : pyval) : string :=
  match v with
  | PStr s => s
  | _ => repr v
  end.

(** [v += s] for a [str] value [s]: concatenation on a [str], extension by
    the characters of [s] on a list. *)
Definition iadd_str (v : pyval) (s : string) : result pyval :=
  match v with
  | PStr a => Ok (PStr (a ++ s))
  | PList l => Ok (PList (l ++ map PStr (chars s))%list)
  | _ => Raise TypeError
  end.

(** [v.title()]. *)
Definition title_of (v : pyval) : result string :=
  match v with
  | PStr s => Ok (title s)
  | _ => Raise AttributeError
  end.

End PyVal.

(** ** The component interface and the main JSON parser *)

Module Component.

(** What the three methods of a component return to a caller: a list of
    messages, or [None] when the method falls off its end.  Each call builds
    its list afresh, as every [get_*] method of the module does, so that the
    in-place filtering of one returned list is not seen by a later call. *)
Record t : Type := {
  get_infos : option (list string);
  get_warnings : option (list string);
  get_alerts : option (list string)
}.

(** [Component.__init__]: a false [data] is replaced by the empty mapping;
    the result is the attribute [data]. *)
Definition init (data : PyVal.pyval) : result PyVal.pyval :=
  Ok (if PyVal.truthy data then data else PyVal.PDict []).

End Component.

Module WPScanJsonParser.
Import PyStr.

Record t : Type := {
  false_positives_strings : list string;
  components : list Component.t
}.

(** [__init__]: the rule list defaults to the empty list, and no component
    is added yet. *)
Definition init (false_positives_strings : option (list string)) : t :=
  {| false_positives_strings :=
       match false_positives_strings with Some l => l | None => [] end;
     components := [] |}.

(** [is_false_positive]: true as soon as one rule occurs in the message. *)
Definition is_false_positive (string : String.string)
  (false_positives_strings : list String.string) : bool :=
  existsb (fun fp_string => contains fp_string string) false_positives_strings.

(** [list.remove]: drops the first element equal to [x]. *)
Fixpoint remove (x : string) (l : list string) : list string :=
  match l with
  | [] => []
  | y :: r => if String.eqb x y then r else y :: remove x r
  end.

(** The loop of [ignore_false_positives]: the iterator of a [for] over a
    list holds a position [idx] in the list, which the body shortens while
    the loop runs. *)
Fixpoint ignore_loop (fuel idx : nat) (messages fps : list string) : list string :=
  match fuel with
  | O => messages
  | S fuel' =>
      match nth_error messages idx with
      | None => messages
      | Some alert =>
          if is_false_positive alert fps
          then ignore_loop fuel' (S idx) (remove alert messages) fps
          else ignore_loop fuel' (S idx) messages fps
      end
  end.

Definition ignore_false_positives (messages false_positives_strings : list string)
  : list string :=
  ignore_loop (List.length messages) 0 messages false_positives_strings.

(** A value used where a list is needed. *)
Definition the_list (r : option (list string)) : result (list string) :=
  match r with
  | Some l => Ok l
  | None => Raise TypeError
  end.

Definition FALSE_POSITIVE : string := "[False positive]" ++ NL.

Definition get_infos (self : t) : result (list string) :=
  for_each (components self)
    (fun infos component =>
       own <- the_list (Component.get_infos component) ;;
       a <- the_list (Component.get_alerts component) ;;
       w <- the_list (Component.get_warnings component) ;;
       Ok ((infos ++ own) ++
           map (fun alert => (FALSE_POSITIVE ++ alert)%string)
               (filter (fun alert => is_false_positive alert (false_positives_strings self))
                       (a ++ w)))%list)
    [].

Definition SPECIAL_WARNING : string := "The version could not be determined".

Definition component_warnings (self : t) (component : Component.t)
  : result (list string) :=
  all_warnings <- the_list (Component.get_warnings component) ;;
  let component_warnings :=
    ignore_false_positives all_warnings (false_positives_strings self) in
  Ok (match component_warnings with
      | [w] => if contains SPECIAL_WARNING w then [] else component_warnings
      | _ => component_warnings
      end).

Definition get_warnings (self : t) : result (list string) :=
  for_each (components self)
    (fun warnings component =>
       cw <- component_warnings self component ;;
       Ok (warnings ++ cw)%list)
    [].

Definition get_alerts (self : t) : result (list string) :=
  for_each (components self)
    (fun alerts component =>
       a <- the_list (Component.get_alerts component) ;;
       Ok (alerts ++ ignore_false_positives a (false_positives_strings self))%list)
    [].

End WPScanJsonParser.

(** ** The structured finding hierarchy *)

Module Vulnerability.
Import PyStr PyVal.

Record t : Type := {
  title : pyval;
  cvss : pyval;
  fixed_in : pyval;
  references : pyval
}.

Definition init (data : pyval) : result t :=
  _ <- super_init Component.init data ;;
  title <- get data "title" PNone ;;
  cvss <- get data "cvss" PNone ;;
  fixed_in <- get data "fixed_in" PNone ;;
  references <- get data "references" PNone ;;
  Ok {| title := title; cvss := cvss; fixed_in := fixed_in;
        references := references |}.

Definition CVE_URL : string := "http://cve.mitre.org/cgi-bin/cvename.cgi?name=CVE-".
Definition WPVULNDB_URL : string := "https://wpvulndb.com/vulnerabilities/".

(** The body of [for ref in self.references]. *)
Definition add_reference (references : pyval) (alert ref : pyval) : result pyval :=
  links <- getitem references ref ;;
  links <- iter links ;;
  if eq_str ref "cve" then
    for_each links
      (fun alert cve => iadd_str alert (NL ++ "- CVE: " ++ CVE_URL ++ str cve)) alert
  else if eq_str ref "wpvulndb" then
    for_each links
      (fun alert wpvulndb =>
         iadd_str alert (NL ++ "- WPVulnDB: " ++ WPVULNDB_URL ++ str wpvulndb)) alert
  else
    for_each links
      (fun alert link =>
         label <- title_of ref ;;
         iadd_str alert (NL ++ "- " ++ label ++ ": " ++ str link)) alert.

Definition get_alerts (self : t) : result (list pyval) :=
  let alert := title self in
  alert <- (if truthy (cvss self)
            then iadd_str alert (NL ++ "CVSS: " ++ str (cvss self))
            else Ok alert) ;;
  alert <- (if truthy (fixed_in self)
            then iadd_str alert (NL ++ "Fixed in: " ++ str (fixed_in self))
            else iadd_str alert (NL ++ "Not fixed yet")) ;;
  alert <- (if truthy (references self)
            then
              alert <- iadd_str alert (NL ++ "References: ") ;;
              refs <- iter (references self) ;;
              for_each refs (add_reference (references self)) alert
            else Ok alert) ;;
  Ok [alert].

Definition get_warnings (self : t) : list pyval := [].
Definition get_infos (self : t) : list pyval := [].

(** The record after a call of [get_alerts] that returned: [alert] is the
    very object of [self.title], and [+=] extends a list in place, so that a
    list-valued title has become the alert; a [str] title is unchanged. *)
Definition with_title (title : pyval) (self : t) : t :=
  {| title := title; cvss := cvss self; fixed_in := fixed_in self;
     references := references self |}.

Definition rendered (self : t) : t :=
  match title self, get_alerts self with
  | PList _, Ok [alert] => with_title alert self
  | _, _ => self
  end.

End Vulnerability.

Module Finding.
Import PyStr PyVal.

Record t : Type := {
  found_by : pyval;
  confidence : pyval;
  interesting_entries : pyval;
  confirmed_by : pyval;
  vulnerabilities : list Vulnerability.t
}.

Definition init (data : pyval) : result t :=
  _ <- super_init Component.init data ;;
  found_by <- get data "found_by" PNone ;;
  confidence <- get data "confidence" PNone ;;
  interesting_entries <- get data "interesting_entries" PNone ;;
  confirmed_by <- get data "confirmed_by" PNone ;;
  vulns <- get data "vulnerabilities" (PList []) ;;
  vulns <- iter vulns ;;
  vulnerabilities <- map_r Vulnerability.init vulns ;;
  Ok {| found_by := found_by; confidence := confidence;
        interesting_entries := interesting_entries; confirmed_by := confirmed_by;
        vulnerabilities := vulnerabilities |}.

Definition get_alerts (self : t) : result (list pyval) :=
  for_each (vulnerabilities self)
    (fun alerts v => a <- Vulnerability.get_alerts v ;; Ok (alerts ++ a)%list)
    [].

(** The finding after a call of [get_alerts] that returned. *)
Definition rendered (self : t) : t :=
  {| found_by := found_by self; confidence := confidence self;
     interesting_entries := interesting_entries self;
     confirmed_by := confirmed_by self;
     vulnerabilities := map Vulnerability.rendered (vulnerabilities self) |}.

End Finding.

Module WPItemVersion.
Import PyStr PyVal.

Record t : Type := {
  finding : Finding.t;
  number : pyval
}.

Definition init (data : pyval) : result t :=
  finding <- super_init Finding.init data ;;
  number <- get data "number" data ;;
  Ok {| finding := finding; number := number |}.

Definition get_alerts (self : t) : result (list pyval) :=
  Finding.get_alerts (finding self).

Definition get_warnings (self : t) : list pyval := [].

(** The version after a call of [get_alerts] that returned. *)
Definition rendered (self : t) : t :=
  {| finding := Finding.rendered (finding self); number := number self |}.

End WPItemVersion.

Module WPItem.
Import PyStr PyVal.

Record t : Type := {
  finding : Finding.t;
  slug : pyval;
  location : pyval;
  latest_version : pyval;
  last_updated : pyval;
  outdated : pyval;
  readme_url : pyval;
  directory_listing : pyval;
  error_log_url : pyval;
  version : WPItemVersion.t
}.

Definition init (data : pyval) : result t :=
  finding <- super_init Finding.init data ;;
  slug <- get data "slug" PNone ;;
  location <- get data "location" PNone ;;
  latest_version <- get data "latest_version" PNone ;;
  last_updated <- get data "last_updated" PNone ;;
  outdated <- get data "outdated" PNone ;;
  readme_url <- get data "readme_url" PNone ;;
  directory_listing <- get data "directory_listing" PNone ;;
  error_log_url <- get data "error_log_url" PNone ;;
  version_data <- get data "version" PNone ;;
  version <- WPItemVersion.init version_data ;;
  Ok {| finding := finding; slug := slug; location := location;
        latest_version := latest_version; last_updated := last_updated;
        outdated := outdated; readme_url := readme_url;
        directory_listing := directory_listing; error_log_url := error_log_url;
        version := version |}.

Definition issue_data (self : t) : string :=
  (if truthy (outdated self)
   then NL ++ "The version is out of date, the latest version is "
           ++ str (latest_version self)
   else EmptyString) ++
  (if truthy (directory_listing self)
   then NL ++ "Directory listing is enabled" else EmptyString) ++
  (if truthy (error_log_url self)
   then NL ++ "An error log file has been found: " ++ str (error_log_url self)
   else EmptyString).

Definition _get_warnings (self : t) : result (list pyval) :=
  let warning := slug self in
  if is_empty (issue_data self) then Ok []
  else
    warning <- iadd_str warning (issue_data self) ;;
    warning <- (if truthy (location self)
                then iadd_str warning (NL ++ "Location: " ++ str (location self))
                else Ok warning) ;;
    Ok [warning].

Definition get_alerts (self : t) : result (list pyval) :=
  if obj_truthy (version self) then
    a <- Finding.get_alerts (finding self) ;;
    v <- WPItemVersion.get_alerts (version self) ;;
    Ok (a ++ v)%list
  else Ok [].

(** The notice [get_warnings] puts before the vulnerabilities of an item
    whose version is unknown. *)
Definition UNDETERMINED (slug : pyval) : string :=
  str slug ++ NL ++
  "The plugin or theme version could not be determined by WPScan, all known vulnerabilities are listed. "
  ++ NL ++
  "            Add vulnerabilities titles to false positves strings to ignore these messages.".

Definition nonempty {A : Type} (l : list A) : bool :=
  match l with [] => false | _ => true end.

Definition get_warnings (self : t) : result (list pyval) :=
  warnings <- _get_warnings self ;;
  unrecognized <-
    (if negb (obj_truthy (version self))
     then a <- Finding.get_alerts (finding self) ;; Ok (nonempty a)
     else Ok false) ;;
  if unrecognized then
    a <- Finding.get_alerts (Finding.rendered (finding self)) ;;
    Ok ((warnings ++ [PStr (UNDETERMINED (slug self))]) ++ a)%list
  else Ok warnings.

Definition with_slug (slug : pyval) (self : t) : t :=
  {| finding := finding self; slug := slug; location := location self;
     latest_version := latest_version self; last_updated := last_updated self;
     outdated := outdated self; readme_url := readme_url self;
     directory_listing := directory_listing self;
     error_log_url := error_log_url self; version := version self |}.

(** The item after a call of [get_warnings] that returned: [warning] is the
    very object of [self.slug], which [+=] extends in place when it is a
    list; the vulnerabilities are rendered only under the test on the
    version, which never holds. *)
Definition warned (self : t) : t :=
  match slug self, _get_warnings self with
  | PList _, Ok [warning] => with_slug warning self
  | _, _ => self
  end.

(** The item after a call of [get_alerts] that returned. *)
Definition rendered (self : t) : t :=
  {| finding := Finding.rendered (finding self); slug := slug self;
     location := location self;
     latest_version := latest_version self; last_updated := last_updated self;
     outdated := outdated self; readme_url := readme_url self;
     directory_listing := directory_listing self;
     error_log_url := error_log_url self;
     version := WPItemVersion.rendered (version self) |}.

End WPItem.

(** [[prefix.format(m) for m in l]]: every message is rendered by [str]. *)
Definition labelled (prefix : string) (l : list PyVal.pyval) : list string :=
  map (fun m => prefix ++ PyVal.str m) l.

(** [[prefix.format(super().method()[i]) for i in range(n)]], the
    comprehension of the plugin and theme methods. *)
Definition labelled_by_index {T : Type} (prefix : string)
  (method : T -> result (list PyVal.pyval)) (self : T) (n : nat)
  : result (list string) :=
  map_r (fun i =>
           method <- super_in_comprehension method ;;
           l <- method self ;;
           m <- item_at l i ;;
           Ok (prefix ++ PyVal.str m))
        (seq 0 n).

Module Plugin.
Import PyStr PyVal.

Definition t : Type := WPItem.t.

Definition init (data : pyval) : result t := super_init WPItem.init data.

(** [super().get_warnings()] is called for the test, then for the bound of
    the range, which belongs to the method; the element expression of the
    comprehension asks [super()] again. *)
Definition get_warnings (self : t) : result (option (list string)) :=
  w <- WPItem.get_warnings self ;;
  if WPItem.nonempty w then
    w <- WPItem.get_warnings (WPItem.warned self) ;;
    l <- labelled_by_index "Plugin Warning: " WPItem.get_warnings
           (WPItem.warned (WPItem.warned self)) (List.length w) ;;
    Ok (Some l)
  else Ok None.

Definition get_alerts (self : t) : result (option (list string)) :=
  a <- WPItem.get_alerts self ;;
  if WPItem.nonempty a then
    a <- WPItem.get_alerts (WPItem.rendered self) ;;
    l <- labelled_by_index "Plugin Vulnerability: " WPItem.get_alerts
           (WPItem.rendered (WPItem.rendered self)) (List.length a) ;;
    Ok (Some l)
  else Ok None.

End Plugin.

Module Theme.
Import PyStr PyVal.

(** A theme is an item with the attributes of its style sheet and its parent
    themes; its warnings and alerts are read from the item alone. *)

#[warnings="-register-all"] Inductive t : Type :=
  Build (item : WPItem.t)
        (style_url style_name style_uri description author author_uri
         template license license_uri tags text_domain : pyval)
        (parents : list t).

Definition item (self : t) : WPItem.t :=
  match self with Build i _ _ _ _ _ _ _ _ _ _ _ _ => i end.

Definition parents (self : t) : list t :=
  match self with Build _ _ _ _ _ _ _ _ _ _ _ _ p => p end.

Definition get_warnings (self : t) : result (option (list string)) :=
  w <- WPItem.get_warnings (item self) ;;
  if WPItem.nonempty w then
    w <- WPItem.get_warnings (WPItem.warned (item self)) ;;
    l <- labelled_by_index "Theme Warning: " WPItem.get_warnings
           (WPItem.warned (WPItem.warned (item self))) (List.length w) ;;
    Ok (Some l)
  else Ok None.

Definition get_alerts (self : t) : result (option (list string)) :=
  a <- WPItem.get_alerts (item self) ;;
  if WPItem.nonempty a then
    a <- WPItem.get_alerts (WPItem.rendered (item self)) ;;
    l <- labelled_by_index "Theme Vulnerability: " WPItem.get_alerts
           (WPItem.rendered (WPItem.rendered (item self))) (List.length a) ;;
    Ok (Some l)
  else Ok None.

(** The theme with its item replaced. *)
Definition with_item (i : WPItem.t) (self : t) : t :=
  match self with
  | Build _ a b c d e f g h j k l p => Build i a b c d e f g h j k l p
  end.

(** The theme after a call of [get_warnings], or of [get_alerts], that
    returned a list: the method of the item has been called twice. *)
Definition warned (self : t) : t :=
  with_item (WPItem.warned (WPItem.warned (item self))) self.

Definition rendered (self : t) : t :=
  with_item (WPItem.rendered (WPItem.rendered (item self))) self.

End Theme.

Module MainTheme.
Import PyStr PyVal.

Definition t : Type := Theme.t.

(** The truth value of what a [get_*] method returned. *)
Definition returned_some (r : option (list string)) : bool :=
  match r with
  | Some l => WPItem.nonempty l
  | None => false
  end.

Definition relabelled (prefix : string) (r : option (list string))
  : result (list string) :=
  match r with
  | Some l => Ok (map (fun m => prefix ++ m) l)
  | None => Raise TypeError
  end.

(** [super()] stands in the outermost iterable of the comprehension, which
    belongs to the method: the method of the theme is called a second time. *)
Definition get_warnings (self : t) : result (option (list string)) :=
  w <- Theme.get_warnings self ;;
  if returned_some w
  then w <- Theme.get_warnings (Theme.warned self) ;;
       l <- relabelled "Main Theme Warning: " w ;; Ok (Some l)
  else Ok None.

Definition get_alerts (self : t) : result (option (list string)) :=
  a <- Theme.get_alerts self ;;
  if returned_some a
  then a <- Theme.get_alerts (Theme.rendered self) ;;
       l <- relabelled "Main Theme Vulnerability: " a ;; Ok (Some l)
  else Ok None.

End MainTheme.

Module Timthumb.
Import PyStr PyVal.

Record t : Type := {
  finding : Finding.t;
  url : pyval;
  version : WPItemVersion.t
}.

Definition init (data : pyval) : result t :=
  finding <- super_init Finding.init data ;;
  version_data <- get data "version" PNone ;;
  version <- WPItemVersion.init version_data ;;
  Ok {| finding := finding; url := PNone; version := version |}.

Definition get_warnings (self : t) : result (option (list string)) :=
  Ok (Some []).

(** [super().get_alerts()] is called for the test and again in the iterable
    of the comprehension, on the finding as the first call left it. *)
Definition get_alerts (self : t) : result (option (list string)) :=
  a <- Finding.get_alerts (finding self) ;;
  if WPItem.nonempty a then
    a <- Finding.get_alerts (Finding.rendered (finding self)) ;;
    v <- WPItemVersion.get_alerts (version self) ;;
    Ok (Some (labelled "Timthumb Vulnerability: " (a ++ v)%list))
  else Ok None.

End Timthumb.

(** ** The transcript parser *)

Module Cli.
Import PyStr.

Definition parse_cli_toogle (line : string) (warning_on alert_on : bool)
  : bool * bool :=
  let '(warning_on, alert_on) :=
    if contains "33m[!]" line then (true, alert_on)
    else if contains "31m[!]" line then (warning_on, true)
    else if contains "[!]" line &&
            existsb (fun m => contains m line)
              ["The version is out of date";
               "No WPVulnDB API Token given";
               "You can get a free API token"]
         then (true, alert_on)
    else if contains "[!]" line then (warning_on, true)
    else (warning_on, alert_on) in
  let warning_on := if contains "Insecure" line then true else warning_on in
  if contains "The version could not be determined" line && alert_on
  then (true, false)
  else (warning_on, alert_on).

(** The test of the comprehensions: [m] is neither empty nor a lone bar. *)
Definition kept (m : string) : bool :=
  negb (is_empty m || String.eqb m "|").

(** The loop that cuts the lines of a block at its bar-only lines: the state
    is the list of sections closed so far and the lines of the open one. *)
Definition cut (acc : list string * list string) (l : string)
  : list string * list string :=
  let '(messages_separated, msg) := acc in
  if String.eqb (strip l) "|"
  then ((messages_separated ++ [join NL (filter kept msg)])%list, [l])
  else (messages_separated, (msg ++ [l])%list).

Definition separate (message_lines : list string) : list string :=
  fst (fold_left cut (message_lines ++ ["|"])%list ([], [])).

(** ['| [!] Title' in m.splitlines()[0]]. *)
Definition has_title (m : string) : result bool :=
  match splitlines m with
  | [] => Raise IndexError
  | first :: _ => Ok (contains "| [!] Title" first)
  end.

(** [[m for m in l if test(m)]] for a test that may raise. *)
Fixpoint filter_r (test : string -> result bool) (l : list string)
  : result (list string) :=
  match l with
  | [] => Ok []
  | m :: r =>
      b <- test m ;;
      ms <- filter_r test r ;;
      Ok (if b then m :: ms else ms)
  end.

Record state : Type := {
  messages : list string;
  warnings : list string;
  alerts : list string;
  warning_on : bool;
  alert_on : bool;
  message_lines : list string
}.

Definition initial : state :=
  {| messages := []; warnings := []; alerts := [];
     warning_on := false; alert_on := false; message_lines := [] |}.

(** [parse_cli] calls a global function [is_false_positive]; the module binds
    that name nowhere (it has only the static method of the JSON parser). *)
Definition is_false_positive : result (string -> list string -> bool) :=
  undefined_global.

(** One turn of the loop of [parse_cli] over the lines of the transcript. *)
Definition step (false_positives : list string) (st : state) (line : string)
  : result state :=
  let line := strip line in
  let '(warning_on, alert_on) :=
    parse_cli_toogle line (warning_on st) (alert_on st) in
  let line := re_sub_color line in
  let message_lines := (message_lines st ++ [line])%list in
  let current_message := strip (join NL (filter kept message_lines)) in
  if negb (is_empty (strip line)) || is_empty (strip current_message) then
    Ok {| messages := messages st; warnings := warnings st; alerts := alerts st;
          warning_on := warning_on; alert_on := alert_on;
          message_lines := message_lines |}
  else if (alert_on || warning_on) &&
          existsb (fun s => contains s current_message)
            ["vulnerabilities identified"; "vulnerability identified"]
  then
    let messages_separated := separate message_lines in
    vulnerabilities <- filter_r has_title messages_separated ;;
    let alerts := if alert_on then (alerts st ++ vulnerabilities)%list
                  else alerts st in
    let warnings := if alert_on then warnings st
                    else if warning_on then (warnings st ++ vulnerabilities)%list
                    else warnings st in
    rest <- filter_r (fun m => b <- has_title m ;; Ok (negb b)) messages_separated ;;
    let plugin_infos := join NL rest in
    real <- filter_r (fun v => is_false_positive <- is_false_positive ;;
                               Ok (negb (is_false_positive v false_positives)))
                     vulnerabilities ;;
    if WPItem.nonempty real
    then
      Ok {| messages := messages st;
            warnings := (warnings ++ [plugin_infos])%list;
            alerts := alerts;
            warning_on := false; alert_on := false; message_lines := [] |}
    else
      Ok {| messages := (messages st ++ [("[False positive]" ++ NL ++ plugin_infos)%string])%list;
            warnings := warnings;
            alerts := alerts;
            warning_on := false; alert_on := false; message_lines := [] |}
  else if warning_on then
    Ok {| messages := messages st;
          warnings := (warnings st ++ [current_message])%list;
          alerts := alerts st;
          warning_on := false; alert_on := false; message_lines := [] |}
  else
    Ok {| messages := (messages st ++ [current_message])%list;
          warnings := warnings st;
          alerts := alerts st;
          warning_on := false; alert_on := false; message_lines := [] |}.

(** [parse_cli(wpscan_output, false_positives)] returns the triple
    [(messages, warnings, alerts)]. *)
Definition parse_cli (wpscan_output : string) (false_positives : list string)
  : result (list string * list string * list string) :=
  if negb (contains "[+]" wpscan_output) then Raise ValueError
  else
    st <- for_each (splitlines wpscan_output ++ [EmptyString])%list
            (step false_positives) initial ;;
    Ok (messages st, warnings st, alerts st).

End Cli.

(** ** The structured report parser *)

Module JsonReport.
Import PyStr PyVal.

Definition parse_confidence (finding : pyval) : result string :=
  present <- contains_str "confidence" finding ;;
  if present then
    c <- getitem finding (PStr "confidence") ;;
    Ok (NL ++ "Confidence: " ++ str c)
  else Ok EmptyString.

(** Returns [None] on an empty finding; the local [fdata] is assigned only
    under the test on the status. *)
Definition parse_warning_wordpress (finding : pyval) : result (option string) :=
  if negb (truthy finding) then Ok None
  else
    status <- get finding "status" PNone ;;
    if eq_str status "insecure" then
      number <- getitem finding (PStr "number") ;;
      release_date <- getitem finding (PStr "release_date") ;;
      let fdata := "Insecure WordPress version " ++ str number
                   ++ " identified (released on " ++ str release_date ++ ")" in
      confidence <- parse_confidence finding ;;
      Ok (Some (fdata ++ confidence))
    else Raise UnboundLocalError.

Definition parse_warning_theme_or_plugin (finding : pyval) : result (option string) :=
  if negb (truthy finding) then Ok None
  else
    has_slug <- contains_str "slug" finding ;;
    fdata <- (if has_slug
              then slug <- getitem finding (PStr "slug") ;; Ok (str slug)
              else Ok EmptyString) ;;
    outdated <- get finding "outdated" PNone ;;
    issue_data <- (if truthy outdated
                   then v <- getitem finding (PStr "latest_version") ;;
                        Ok (NL ++ "The version is out of date, the latest version is "
                               ++ str v)
                   else Ok EmptyString) ;;
    directory_listing <- get finding "directory_listing" PNone ;;
    let issue_data :=
      if truthy directory_listing
      then issue_data ++ NL ++ "Directory listing is enabled"
      else issue_data in
    error_log_url <- get finding "error_log_url" PNone ;;
    issue_data <- (if truthy error_log_url
                   then u <- getitem finding (PStr "error_log_url") ;;
                        Ok (issue_data ++ NL ++ "An error log file has been found: "
                                       ++ str u)
                   else Ok issue_data) ;;
    if is_empty issue_data then Ok None
    else
      let fdata := fdata ++ issue_data in
      has_location <- contains_str "location" finding ;;
      fdata <- (if has_location
                then l <- getitem finding (PStr "location") ;;
                     Ok (fdata ++ NL ++ "Location: " ++ str l)
                else Ok fdata) ;;
      confidence <- parse_confidence finding ;;
      Ok (Some (fdata ++ confidence)).

(** The truth value of a returned [None] or [str]. *)
Definition some_text (r : option string) : bool :=
  match r with
  | Some s => negb (is_empty s)
  | None => false
  end.

Definition text_of (r : option string) : string :=
  match r with Some s => s | None => EmptyString end.

(** The body of [for slug in data.get('plugins', {})]. *)
Definition plugin_step (data : pyval) (warnings : list string) (slug : pyval)
  : result (list string) :=
  plugins <- get data "plugins" PNone ;;
  plugin <- get_v plugins slug PNone ;;
  plugin_warning <- parse_warning_theme_or_plugin plugin ;;
  if some_text plugin_warning then
    plugins <- get data "plugins" PNone ;;
    plugin <- get_v plugins slug PNone ;;
    version <- get plugin "version" PNone ;;
    let plugin_warning :=
      if negb (truthy version)
      then text_of plugin_warning ++ NL
           ++ "The version could not be determined, all known vulnerabilites are listed"
      else text_of plugin_warning in
    Ok (warnings ++ [plugin_warning])%list
  else Ok warnings.

(** [parse_json(data)] returns the triple [(infos, warnings, alerts)]. *)
Definition parse_json (data : pyval)
  : result (list string * list string * list string) :=
  if negb (truthy data) then Raise ValueError
  else
    has_url <- contains_str "target_url" data ;;
    if negb has_url then Raise ValueError
    else
      url <- getitem data (PStr "target_url") ;;
      if negb (truthy url) then Raise ValueError
      else
        version <- get data "version" PNone ;;
        wp_warning <- parse_warning_wordpress version ;;
        let warnings :=
          if some_text wp_warning then [text_of wp_warning] else [] in
        main_theme <- get data "main_theme" PNone ;;
        main_theme_warning <- parse_warning_theme_or_plugin main_theme ;;
        let warnings :=
          if some_text main_theme_warning
          then (warnings ++ [text_of main_theme_warning])%list else warnings in
        plugins <- get data "plugins" (PDict []) ;;
        slugs <- iter plugins ;;
        warnings <- for_each slugs (plugin_step data) warnings ;;
        Ok ([], warnings, []).

(** [parse_target(data)], which [parse_json] does not call. *)
Definition parse_target (data : pyval) : result (list string) :=
  target_url <- getitem data (PStr "target_url") ;;
  has_ip <- contains_str "target_ip" data ;;
  target_ip <- (if has_ip then ip <- getitem data (PStr "target_ip") ;; Ok (str ip)
                else Ok "?") ;;
  effective_url <- getitem data (PStr "effective_url") ;;
  Ok ["Target URL: " ++ str target_url ++ NL ++ "IP: " ++ target_ip ++ NL
      ++ "Effective URL: " ++ str effective_url].

End JsonReport.

(** ** Quantities and inputs the properties are stated with *)

Module Buckets.
Import PyStr WPScanJsonParser.

(** The list a component method returned. *)
Definition listed (r : option (list string)) : list string :=
  match r with Some l => l | None => [] end.

(** All three methods of the component return a list. *)
Definition returns_lists (c : Component.t) : Prop :=
  Component.get_infos c <> None /\
  Component.get_warnings c <> None /\
  Component.get_alerts c <> None.

Definition alerts_and_warnings (c : Component.t) : list string :=
  (listed (Component.get_alerts c) ++ listed (Component.get_warnings c))%list.

(** The message matches no rule. *)
Definition survives (fps : list string) (m : string) : bool :=
  negb (is_false_positive m fps).

(** The parser with the rules [fps] over the components [cs]. *)
Definition parser (fps : list string) (cs : list Component.t) : WPScanJsonParser.t :=
  {| false_positives_strings := fps; components := cs |}.




(** The filtered warnings of the component are one message that holds the
    phrase [SPECIAL_WARNING]. *)
Definition lone_special (fps : list string) (c : Component.t) : bool :=
  match ignore_false_positives (listed (Component.get_warnings c)) fps with
  | [w] => contains SPECIAL_WARNING w
  | _ => false
  end.


(** The boilerplate of the specification. *)
Definition BOILERPLATE : string := "The version could not be determined by WPScan".

Definition boilerplate_warning : string :=
  BOILERPLATE ++ ", all known vulnerabilities are listed".

(** A component that only warns that boilerplate. *)
Definition undetermined_only : Component.t :=
  {| Component.get_infos := Some [];
     Component.get_warnings := Some [boilerplate_warning];
     Component.get_alerts := Some [] |}.


(** What one component adds to each bucket of the parser. *)
Definition infos_of (fps : list string) (c : Component.t) : list string :=
  (listed (Component.get_infos c) ++
   map (fun alert => (FALSE_POSITIVE ++ alert)%string)
       (filter (fun alert => is_false_positive alert fps) (alerts_and_warnings c)))%list.

Definition warnings_of (fps : list string) (c : Component.t) : list string :=
  if lone_special fps c then []
  else ignore_false_positives (listed (Component.get_warnings c)) fps.

Definition alerts_of (fps : list string) (c : Component.t) : list string :=
  ignore_false_positives (listed (Component.get_alerts c)) fps.

(** Two alerts that the rule [XSS] matches, one after the other. *)
Definition xss_foo : string := "Plugin Vulnerability: XSS in foo".
Definition xss_bar : string := "Plugin Vulnerability: XSS in bar".

(** The parser over a component with those two alerts, under that rule. *)
Definition xss_report : WPScanJsonParser.t :=
  {| false_positives_strings := ["XSS"];
     components :=
       [ {| Component.get_infos := Some [];
            Component.get_warnings := Some [];
            Component.get_alerts := Some [xss_foo; xss_bar] |} ] |}.

End Buckets.

Module Rendering.
Import PyStr PyVal Vulnerability.

(** The line that shows the severity score, when there is one. *)
Definition cvss_line (v : Vulnerability.t) : string :=
  if truthy (cvss v) then NL ++ "CVSS: " ++ str (cvss v) else EmptyString.

(** The line that tells in which version the flaw is fixed, if in any. *)
Definition fixed_line (v : Vulnerability.t) : string :=
  if truthy (fixed_in v) then NL ++ "Fixed in: " ++ str (fixed_in v)
  else NL ++ "Not fixed yet".

(** The line of one link under the reference type [key]. *)
Definition reference_line (key : string) (link : pyval) : string :=
  if String.eqb key "cve" then NL ++ "- CVE: " ++ CVE_URL ++ str link
  else if String.eqb key "wpvulndb" then NL ++ "- WPVulnDB: " ++ WPVULNDB_URL ++ str link
  else NL ++ "- " ++ PyStr.title key ++ ": " ++ str link.

Definition glue (l : list string) : string :=
  fold_right String.append EmptyString l.

(** The lines of the links of one reference type. *)
Definition group_lines (group : string * list pyval) : string :=
  glue (map (reference_line (fst group)) (snd group)).

(** The reference part of an alert: a heading, then the groups in order. *)
Definition reference_lines (groups : list (string * list pyval)) : string :=
  match groups with
  | [] => EmptyString
  | _ => NL ++ "References: " ++ glue (map group_lines groups)
  end.

(** The decoded [references] mapping that holds the given groups. *)
Definition as_groups (groups : list (string * list pyval)) : pyval :=
  PDict (map (fun g => (fst g, PList (snd g))) groups).

(** The references of the record are the given groups of links, each
    reference type listed once; no group stands for no reference at all. *)
Definition has_references (v : Vulnerability.t) (groups : list (string * list pyval))
  : Prop :=
  NoDup (map fst groups) /\
  (references v = as_groups groups \/
   (groups = [] /\ truthy (references v) = false)).

(** The text holds no line break. *)
Fixpoint single_line (s : string) : bool :=
  match s with
  | EmptyString => true
  | String c t => negb (is_linebreak c) && single_line t
  end.

Definition cve_record : Vulnerability.t :=
  {| title := PStr "Foo 1.0 - Stored XSS";
     cvss := PNone;
     fixed_in := PNone;
     references := PDict [("cve", PList [PStr "2020-1234"])] |}.

(** The decoded record [{"references": {"cve": ["2020-1234"]}}], and the
    object with its attributes: the keys it lacks are read as [None]. *)
Definition cve_only_data : pyval :=
  PDict [("references", PDict [("cve", PList [PStr "2020-1234"])])].

Definition cve_only_record : Vulnerability.t :=
  {| title := PNone;
     cvss := PNone;
     fixed_in := PNone;
     references := PDict [("cve", PList [PStr "2020-1234"])] |}.

End Rendering.

Module Transcript.
Import PyStr.

Definition esc : string := String ESC EmptyString.

(** The marker [[!]] in yellow and the marker [[+]] in green, as the scanner
    colours them. *)
Definition WARNING_MARK : string := esc ++ "[33m[!]" ++ esc ++ "[0m".
Definition INFO_MARK : string := esc ++ "[32m[+]" ++ esc ++ "[0m".

(** The lines of the block of two vulnerabilities, every marker yellow. *)
Definition block_lines : list string :=
  [ WARNING_MARK ++ " Title: X";
    WARNING_MARK ++ " 2 vulnerabilities identified:";
    " |";
    " | " ++ WARNING_MARK ++ " Title: CVE-1";
    " |";
    " | " ++ WARNING_MARK ++ " Title: CVE-2" ].

(** A transcript: one block of information, a blank line, then the block. *)
Definition two_vulnerabilities : string :=
  INFO_MARK ++ " URL: http://x/" ++ NL ++ NL ++ join NL block_lines.

(** The same transcript without any colour. *)
Definition two_vulnerabilities_plain : string :=
  "[+] URL: http://x/" ++ NL ++ NL ++
  join NL [ "[!] Title: X"; "[!] 2 vulnerabilities identified:"; " |";
            " | [!] Title: CVE-1"; " |"; " | [!] Title: CVE-2" ].

End Transcript.

Module Inputs.
Import PyStr PyVal.

(** [{"target_url": null}] and [{"target_url": "http://x"}]. *)
Definition no_target : pyval := PDict [("target_url", PNone)].
Definition only_target : pyval := PDict [("target_url", PStr "http://x")].

Definition xss : pyval := PDict [("title", PStr "Foo 1.0 - Stored XSS")].

(** An outdated plugin with one known vulnerability and no [version] key. *)
Definition outdated_plugin : pyval :=
  PDict [("slug", PStr "foo");
         ("outdated", PBool true);
         ("latest_version", PStr "2.0");
         ("vulnerabilities", PList [xss])].

Definition no_finding : Finding.t :=
  {| Finding.found_by := PNone; Finding.confidence := PNone;
     Finding.interesting_entries := PNone; Finding.confirmed_by := PNone;
     Finding.vulnerabilities := [] |}.

(** A version object without vulnerabilities. *)
Definition empty_version : WPItemVersion.t :=
  {| WPItemVersion.finding := no_finding; WPItemVersion.number := PDict [] |}.

(** The plugin object with the attributes of [outdated_plugin] and that
    version object. *)
Definition unversioned_item : WPItem.t :=
  {| WPItem.finding :=
       {| Finding.found_by := PNone; Finding.confidence := PNone;
          Finding.interesting_entries := PNone; Finding.confirmed_by := PNone;
          Finding.vulnerabilities :=
            [ {| Vulnerability.title := PStr "Foo 1.0 - Stored XSS";
                 Vulnerability.cvss := PNone;
                 Vulnerability.fixed_in := PNone;
                 Vulnerability.references := PNone |} ] |};
     WPItem.slug := PStr "foo";
     WPItem.location := PNone;
     WPItem.latest_version := PStr "2.0";
     WPItem.last_updated := PNone;
     WPItem.outdated := PBool true;
     WPItem.readme_url := PNone;
     WPItem.directory_listing := PNone;
     WPItem.error_log_url := PNone;
     WPItem.version := empty_version |}.

(** An item, a theme and a timthumb with nothing to report. *)
Definition quiet_item : WPItem.t :=
  {| WPItem.finding := no_finding;
     WPItem.slug := PStr "bar";
     WPItem.location := PNone;
     WPItem.latest_version := PNone;
     WPItem.last_updated := PNone;
     WPItem.outdated := PNone;
     WPItem.readme_url := PNone;
     WPItem.directory_listing := PNone;
     WPItem.error_log_url := PNone;
     WPItem.version := empty_version |}.

Definition quiet_theme : Theme.t :=
  Theme.Build quiet_item PNone PNone PNone PNone PNone PNone PNone PNone PNone
    PNone PNone [].

Definition quiet_timthumb : Timthumb.t :=
  {| Timthumb.finding := no_finding; Timthumb.url := PNone;
     Timthumb.version := empty_version |}.

End Inputs.

(** ** Further code of the module *)

(** [sep.join(v)]: [v] has to be iterable and to yield only [str]. *)
Definition join_v (sep : string) (v : PyVal.pyval) : result string :=
  items <- PyVal.iter v ;;
  texts <- map_r (fun x => match x with
                           | PyVal.PStr s => Ok s
                           | _ => Raise TypeError
                           end) items ;;
  Ok (PyStr.join sep texts).

Module Infos.
Import PyStr PyVal.

(** The call ["\n- {} (confidence: {})".format(entry)] of [Finding.get_infos]
    has two fields and one argument. *)
Definition format_confirmed_entry (entry : pyval) : result string :=
  Raise IndexError.

(** The body of [for entry in self.confirmed_by] in [Finding.get_infos]. *)
Definition confirmed_entry (confirmed_by : pyval) (info : string) (entry : pyval)
  : result string :=
  text <- format_confirmed_entry entry ;;
  let info := info ++ text in
  sub <- getitem confirmed_by entry ;;
  confidence <- get sub "confidence" PNone ;;
  info <- (if truthy confidence
           then sub <- getitem confirmed_by entry ;;
                c <- getitem sub (PStr "confidence") ;;
                Ok (info ++ "(confidence: " ++ str c ++ ")")
           else Ok info) ;;
  entries <- get confirmed_by "interesting_entries" PNone ;;
  if truthy entries
  then entries <- get confirmed_by "interesting_entries" PNone ;;
       j <- join_v (NL ++ "  - ") entries ;;
       Ok (info ++ NL ++ "  Interesting entries: " ++ NL ++ "  - " ++ j)
  else Ok info.

(** [Finding.get_infos]. *)
Definition Finding_get_infos (self : Finding.t) : result (list string) :=
  let info := EmptyString in
  let info := if truthy (Finding.found_by self)
              then info ++ "Found by: " ++ str (Finding.found_by self)
              else info in
  let info := if truthy (Finding.confidence self)
              then info ++ "(confidence: " ++ str (Finding.confidence self) ++ ")"
              else info in
  info <- (if truthy (Finding.interesting_entries self)
           then j <- join_v (NL ++ "- ") (Finding.interesting_entries self) ;;
                Ok (info ++ NL ++ "Interesting entries: " ++ NL ++ "- " ++ j)
           else Ok info) ;;
  info <- (if truthy (Finding.confirmed_by self)
           then entries <- iter (Finding.confirmed_by self) ;;
                for_each entries (confirmed_entry (Finding.confirmed_by self))
                  (info ++ "Confirmed by: ")
           else Ok info) ;;
  Ok [info].

(** [super().get_infos()[0]]. *)
Definition first_info (self : Finding.t) : result string :=
  infos <- Finding_get_infos self ;;
  match infos with
  | i :: _ => Ok i
  | [] => Raise IndexError
  end.

(** [WPItemVersion.get_infos]. *)
Definition WPItemVersion_get_infos (self : WPItemVersion.t) : result (list string) :=
  let info := "Version: " ++ str (WPItemVersion.number self) ++ " " in
  i <- first_info (WPItemVersion.finding self) ;;
  Ok [info ++ NL ++ i].

(** [WPItem.get_infos]. *)
Definition WPItem_get_infos (self : WPItem.t) : result (list pyval) :=
  let info := WPItem.slug self in
  info <- (if truthy (WPItem.location self)
           then iadd_str info (NL ++ "Location: " ++ str (WPItem.location self))
           else Ok info) ;;
  info <- (if truthy (WPItem.latest_version self)
           then iadd_str info
                  (NL ++ "Latest Version: " ++ str (WPItem.latest_version self) ++ " "
                      ++ (if negb (truthy (WPItem.outdated self))
                          then "(up to date)" else EmptyString))
           else Ok info) ;;
  info <- (if truthy (WPItem.last_updated self)
           then iadd_str info (NL ++ "Last Updated: " ++ str (WPItem.last_updated self))
           else Ok info) ;;
  info <- (if truthy (WPItem.readme_url self)
           then iadd_str info (NL ++ "Readme: " ++ str (WPItem.readme_url self))
           else Ok info) ;;
  info <- (if obj_truthy (WPItem.version self)
           then
             vi <- WPItemVersion_get_infos (WPItem.version self) ;;
             match vi with
             | i :: _ => iadd_str info (NL ++ i)
             | [] => Raise IndexError
             end
           else iadd_str info (NL ++ "The version could not be determined")) ;;
  i <- first_info (WPItem.finding self) ;;
  info <- iadd_str info i ;;
  Ok [info].

(** [Plugin.get_infos]. *)
Definition Plugin_get_infos (self : Plugin.t) : result (list string) :=
  infos <- WPItem_get_infos self ;;
  match infos with
  | i :: _ => Ok ["Plugin: " ++ str i]
  | [] => Raise IndexError
  end.

End Infos.

Module WPVersion.
Import PyStr PyVal.

Record t : Type := {
  finding : Finding.t;
  number : pyval;
  release_date : pyval;
  status : pyval
}.

Definition init (data : pyval) : result t :=
  finding <- super_init Finding.init data ;;
  number <- get data "number" PNone ;;
  release_date <- get data "release_date" PNone ;;
  status <- get data "status" PNone ;;
  Ok {| finding := finding; number := number; release_date := release_date;
        status := status |}.

Definition get_infos (self : t) : result (list string) :=
  info <- (if truthy (number self) then
             let info := "Wordpress Version: " ++ str (number self) in
             let info := if truthy (release_date self)
                         then info ++ "Release Date: " ++ str (release_date self)
                         else info in
             if truthy (status self)
             then s <- title_of (status self) ;; Ok (info ++ "Status: " ++ s)
             else Ok info
           else Ok "Wordpress Version: The WordPress version could not be detected") ;;
  i <- Infos.first_info (finding self) ;;
  if negb (is_empty i)
  then i <- Infos.first_info (finding self) ;; Ok [info ++ NL ++ i]
  else Ok [info].

Definition get_warnings (self : t) : list string :=
  if eq_str (status self) "insecure" then
    ["Wordpress Version Warning: "
     ++ "Insecure WordPress version " ++ str (number self)
     ++ " identified (released on " ++ str (release_date self) ++ ")"]
  else [].

(** [super().get_alerts()] is called for the test and again as the iterable
    of the comprehension, on the finding as the first call left it. *)
Definition get_alerts (self : t) : result (option (list string)) :=
  a <- Finding.get_alerts (finding self) ;;
  if WPItem.nonempty a
  then a <- Finding.get_alerts (Finding.rendered (finding self)) ;;
       Ok (Some (labelled "Wordpress Version Vulnerability: " a))
  else Ok None.

End WPVersion.

Module DBExport.
Import PyStr PyVal.

Record t : Type := {
  finding : Finding.t;
  url : pyval
}.

Definition init (url data : pyval) : result t :=
  finding <- super_init Finding.init data ;;
  Ok {| finding := finding; url := url |}.

Definition get_alerts (self : t) : result (list string) :=
  i <- Infos.first_info (finding self) ;;
  Ok ["Database Export: " ++ str (url self) ++ NL ++ i].

Definition get_warnings (self : t) : list string := [].
Definition get_infos (self : t) : list string := [].

End DBExport.

Module NotFullyConfigured.
Import PyStr PyVal.

Record t : Type := { not_fully_configured : pyval }.

Definition init (data : pyval) : result t :=
  _ <- super_init Component.init data ;;
  v <- get data "not_fully_configured" PNone ;;
  Ok {| not_fully_configured := v |}.

Definition get_alerts (self : t) : list string :=
  if truthy (not_fully_configured self)
  then ["Wordpress Alert: " ++ str (not_fully_configured self)]
  else [].

Definition get_warnings (self : t) : list string := [].
Definition get_infos (self : t) : list string := [].

End NotFullyConfigured.

Module JsonMisc.
Import PyStr PyVal.

(** [check_valid_section]: the second operand of [or] takes the length of a
    value that is [None]. *)
Definition check_valid_section (data : pyval) (section : string) : result bool :=
  present <- contains_str section data ;;
  if present then
    v <- getitem data (PStr section) ;;
    match v with
    | PNone => Raise TypeError
    | _ => Ok true
    end
  else Ok false.

Definition wrap_parse_simple_values (data : pyval) (section title : string)
  : result (list string) :=
  valid <- check_valid_section data section ;;
  if valid then
    values <- getitem data (PStr section) ;;
    values <- iter values ;;
    Ok (map (fun val => title ++ str val) values)
  else Ok [].

Definition parse_banner (data : pyval) : result (list string) :=
  valid <- check_valid_section data "banner" ;;
  if negb valid then Ok []
  else
    banner <- getitem data (PStr "banner") ;;
    wrap_parse_simple_values banner "version" "Scanned with WPScan version: ".

Definition parse_interesting_entries (finding : pyval) : result string :=
  valid <- check_valid_section finding "interesting_entries" ;;
  if valid then
    entries <- getitem finding (PStr "interesting_entries") ;;
    j <- join_v ", " entries ;;
    Ok (NL ++ "Interesting Entries: " ++ j)
  else Ok EmptyString.

(** [parse_findings] and, through it, [parse_misc_infos] call a global
    function [parse_vulnerability_or_finding]; the module binds that name
    nowhere. *)
Definition parse_vulnerability_or_finding : result (pyval -> result string) :=
  undefined_global.

(** [parse_findings]: a list is read element by element, a dict value by
    value, anything else is refused; the function is looked up before its
    argument is evaluated. *)
Definition parse_findings (findings : pyval) : result (list string) :=
  match findings with
  | PList l =>
      map_r (fun finding =>
               parse_vulnerability_or_finding <- parse_vulnerability_or_finding ;;
               parse_vulnerability_or_finding finding) l
  | PDict d =>
      map_r (fun key =>
               parse_vulnerability_or_finding <- parse_vulnerability_or_finding ;;
               finding <- getitem findings key ;;
               parse_vulnerability_or_finding finding)
            (map (fun p => PStr (fst p)) d)
  | _ => Raise TypeError
  end.

Definition parse_misc_infos (data : pyval) : result (list string) :=
  messages <- JsonReport.parse_target data ;;
  banner <- parse_banner data ;;
  let messages := (messages ++ banner)%list in
  valid <- check_valid_section data "interesting_findings" ;;
  messages <- (if valid then
                 findings <- getitem data (PStr "interesting_findings") ;;
                 summary <- parse_findings findings ;;
                 Ok (messages ++ summary)%list
               else Ok messages) ;;
  users <- wrap_parse_simple_values data "users" "WordPress user found: " ;;
  Ok (messages ++ users)%list.

End JsonMisc.

(** ** Further quantities the properties are stated with *)

Module Shape.
Import PyStr PyVal WPScanJsonParser.

(** [l] is [m] with some elements left out. *)
Inductive subseq {A : Type} : list A -> list A -> Prop :=
| subseq_nil : subseq [] []
| subseq_skip (x : A) (l m : list A) : subseq l m -> subseq l (x :: m)
| subseq_keep (x : A) (l m : list A) : subseq l m -> subseq (x :: l) (x :: m).

(** No two neighbours of the list both match a rule. *)
Fixpoint no_adjacent (fps : list string) (l : list string) : bool :=
  match l with
  | x :: r =>
      match r with
      | y :: _ => negb (is_false_positive x fps && is_false_positive y fps)
      | [] => true
      end && no_adjacent fps r
  | [] => true
  end.

(** The text holds no escape character. *)
Definition escape_free (s : string) : bool := negb (has_char ESC s).

(** No text of the list holds an escape character. *)
Definition clean (l : list string) : Prop :=
  Forall (fun m => escape_free m = true) l.

(** The computation does not raise the format error. *)
Definition accepts {A : Type} (r : result A) : Prop := r <> Raise ValueError.

(** The mapping holds the key. *)
Definition has_key (k : string) (d : list (string * pyval)) : bool :=
  match lookup k d with Some _ => true | None => false end.

(** The value of the key, [None] when the key is missing. *)
Definition value_of (k : string) (d : list (string * pyval)) : pyval :=
  match lookup k d with Some v => v | None => PNone end.

(** The text that follows [label] for the key [k], if the mapping holds the
    key. *)
Definition labelled_key (label k : string) (d : list (string * pyval)) : string :=
  if has_key k d then NL ++ label ++ str (value_of k d) else EmptyString.

(** The sentences of [parse_warning_theme_or_plugin] about the issues of a
    finding; the latest version is read without a default. *)
Definition issues_of (d : list (string * pyval)) : result string :=
  outdated <- (if truthy (value_of "outdated" d)
               then v <- getitem (PDict d) (PStr "latest_version") ;;
                    Ok (NL ++ "The version is out of date, the latest version is "
                           ++ str v)
               else Ok EmptyString) ;;
  Ok (outdated
      ++ (if truthy (value_of "directory_listing" d)
          then NL ++ "Directory listing is enabled" else EmptyString)
      ++ (if truthy (value_of "error_log_url" d)
          then NL ++ "An error log file has been found: "
                  ++ str (value_of "error_log_url" d)
          else EmptyString)).

(** What [+=] of a text asks of its left operand: a text, a list, or any
    other value. *)
Definition kind_of (v : pyval) : nat :=
  match v with PStr _ => 0 | PList _ => 1 | _ => 2 end.

(** Two runs that start from [a] and from [b] fail alike, or both return a
    value of the kind they started from. *)
Definition tracks (a b : pyval) (r1 r2 : result pyval) : Prop :=
  match r1, r2 with
  | Ok a', Ok b' => kind_of a' = kind_of a /\ kind_of b' = kind_of b
  | Raise e1, Raise e2 => e1 = e2
  | _, _ => False
  end.

(** The value is a list or a mapping that holds at least one finding. *)
Definition holds_findings (findings : pyval) : bool :=
  match findings with
  | PList (_ :: _) | PDict (_ :: _) => true
  | _ => false
  end.

(** The item has the attributes that the constructor reads from the mapping:
    the value of each key, [None] for a missing key. *)
Definition item_of (d : list (string * pyval)) (item : WPItem.t) : Prop :=
  WPItem.slug item = value_of "slug" d /\
  WPItem.location item = value_of "location" d /\
  WPItem.latest_version item = value_of "latest_version" d /\
  WPItem.outdated item = value_of "outdated" d /\
  WPItem.directory_listing item = value_of "directory_listing" d /\
  WPItem.error_log_url item = value_of "error_log_url" d.

(** The version object has the attributes that the constructor reads from the
    mapping. *)
Definition version_of (d : list (string * pyval)) (v : WPVersion.t) : Prop :=
  WPVersion.number v = value_of "number" d /\
  WPVersion.release_date v = value_of "release_date" d /\
  WPVersion.status v = value_of "status" d.

End Shape.

Module Samples.
Import PyStr PyVal.

(** A transcript of two blocks of information. *)
Definition info_transcript : string :=
  "[+] URL: http://x/" ++ NL ++ NL ++ "[+] Started: today".

(** A coloured transcript: a block of information, then a warning that is
    no compound block. *)
Definition outdated_transcript : string :=
  Transcript.INFO_MARK ++ " URL: http://x/" ++ NL ++ NL
  ++ Transcript.WARNING_MARK ++ " The version is out of date, the latest version is 2.0".

(** A report with an outdated plugin of unknown version. *)
Definition plugin_report : pyval :=
  PDict [("target_url", PStr "http://x");
         ("plugins", PDict [("foo", Inputs.outdated_plugin)])].

(** A report whose WordPress version is the latest. *)
Definition latest_report : pyval :=
  PDict [("target_url", PStr "http://x");
         ("version", PDict [("number", PStr "5.4"); ("status", PStr "latest")])].

(** A report with its target, a banner and two users. *)
Definition banner_report : pyval :=
  PDict [("target_url", PStr "http://x");
         ("effective_url", PStr "http://x/");
         ("banner", PDict [("version", PStr "3.8")]);
         ("users", PList [PStr "admin"; PStr "bob"])].

(** A report with its addresses and one interesting finding. *)
Definition findings_report : list (string * pyval) :=
  [("target_url", PStr "http://x");
   ("effective_url", PStr "http://x/");
   ("interesting_findings", PList [PDict [("to_s", PStr "http://x/robots.txt")]])].

(** A report with only its target and effective addresses. *)
Definition target_report : pyval :=
  PDict [("target_url", PStr "http://x"); ("effective_url", PStr "http://x/")].

(** An insecure WordPress version. *)
Definition insecure_version : list (string * pyval) :=
  [("number", PStr "4.0"); ("release_date", PStr "2014-09-04");
   ("status", PStr "insecure")].

(** An outdated plugin whose version is known. *)
Definition versioned_plugin : list (string * pyval) :=
  [("slug", PStr "foo");
   ("location", PStr "http://x/wp-content/plugins/foo/");
   ("outdated", PBool true);
   ("latest_version", PStr "2.0");
   ("directory_listing", PBool true);
   ("version", PDict [("number", PStr "1.0")])].

(** The item object with the attributes of that plugin. *)
Definition versioned_item : WPItem.t :=
  {| WPItem.finding := Inputs.no_finding;
     WPItem.slug := PStr "foo";
     WPItem.location := PStr "http://x/wp-content/plugins/foo/";
     WPItem.latest_version := PStr "2.0";
     WPItem.last_updated := PNone;
     WPItem.outdated := PBool true;
     WPItem.readme_url := PNone;
     WPItem.directory_listing := PBool true;
     WPItem.error_log_url := PNone;
     WPItem.version :=
       {| WPItemVersion.finding := Inputs.no_finding;
          WPItemVersion.number := PStr "1.0" |} |}.

(** The version object with the attributes of the insecure version. *)
Definition insecure_object : WPVersion.t :=
  {| WPVersion.finding := Inputs.no_finding;
     WPVersion.number := PStr "4.0";
     WPVersion.release_date := PStr "2014-09-04";
     WPVersion.status := PStr "insecure" |}.

End Samples.

Module MoreSamples.
Import PyStr PyVal.

(** A finding that something confirmed. *)
Definition confirmed_finding : Finding.t :=
  {| Finding.found_by := PStr "Headers (Passive Detection)";
     Finding.confidence := PInt 100;
     Finding.interesting_entries := PNone;
     Finding.confirmed_by := PDict [("Direct Access", PDict [("confidence", PInt 80)])];
     Finding.vulnerabilities := [] |}.

End MoreSamples.

(** * Properties *)

(** ** Strings *)

Section StringFacts.
Import PyStr.

Lemma startswith_refl_app (a y : string) : startswith a (a ++ y) = true.
Proof.
  induction a as [|c a IH]; simpl; [reflexivity|].
  now rewrite Ascii.eqb_refl.
Qed.

Lemma startswith_shorter (a b s : string) :
  startswith (a ++ b) s = true -> startswith a s = true.
Proof.
  revert s; induction a as [|c a IH]; intros s H; simpl in *; [reflexivity|].
  destruct s as [|d s]; [discriminate|].
  destruct (Ascii.eqb c d); [now apply IH | discriminate].
Qed.

Lemma contains_shorter (a b s : string) :
  contains (a ++ b) s = true -> contains a s = true.
Proof.
  induction s as [|d s IH]; simpl; intros H.
  - destruct (startswith (a ++ b) EmptyString) eqn:E; [|discriminate].
    now rewrite (startswith_shorter _ _ _ E).
  - destruct (startswith (a ++ b) (String d s)) eqn:E.
    + now rewrite (startswith_shorter _ _ _ E).
    + destruct (startswith a (String d s)); [reflexivity | now apply IH].
Qed.

Lemma contains_here (a y : string) : contains a (a ++ y) = true.
Proof.
  destruct (a ++ y) eqn:E; simpl; rewrite <- E, startswith_refl_app; reflexivity.
Qed.

Lemma contains_later (a x s : string) :
  contains a s = true -> contains a (x ++ s) = true.
Proof.
  intros H; induction x as [|c x IH]; simpl; [exact H|].
  rewrite IH. now destruct (startswith a (String c (x ++ s))).
Qed.

Lemma contains_middle (a x y : string) : contains a (x ++ a ++ y) = true.
Proof. apply contains_later, contains_here. Qed.

Lemma startswith_longer (a s y : string) :
  startswith a s = true -> startswith a (s ++ y) = true.
Proof.
  revert s; induction a as [|c a IH]; intros s H; [reflexivity|].
  destruct s as [|d s]; [discriminate|]. simpl in *.
  destruct (Ascii.eqb c d); [now apply IH | discriminate].
Qed.

Lemma contains_longer (a s y : string) :
  contains a s = true -> contains a (s ++ y) = true.
Proof.
  induction s as [|d s IH]; simpl; intros H.
  - destruct a; [|discriminate]. now destruct y.
  - destruct (startswith a (String d s)) eqn:E.
    + apply (startswith_longer _ _ y) in E. simpl in E. now rewrite E.
    + rewrite (IH H). now destruct (startswith a (String d (s ++ y))).
Qed.

End StringFacts.

(** ** The false-positive filter *)

Section FilterFacts.
Import WPScanJsonParser Buckets.

Variable fps : list string.

Lemma remove_length (x : string) (l : list string) :
  List.length (remove x l) <= List.length l.
Proof.
  induction l as [|y l IH]; simpl; [lia|].
  destruct (String.eqb x y); simpl; lia.
Qed.

(** Dropping a message that matches a rule leaves the other messages as
    they are. *)
Lemma remove_keep (x : string) (l : list string) :
  is_false_positive x fps = true ->
  filter (survives fps) (remove x l) = filter (survives fps) l.
Proof.
  intros Hx; induction l as [|y l IH]; simpl; [reflexivity|].
  destruct (String.eqb_spec x y) as [->|Hne].
  - unfold survives at 2. now rewrite Hx.
  - simpl. now rewrite IH.
Qed.

Lemma ignore_loop_keep (fuel idx : nat) (l : list string) :
  filter (survives fps) (ignore_loop fuel idx l fps) = filter (survives fps) l.
Proof.
  revert idx l; induction fuel as [|fuel IH]; intros idx l; simpl; [reflexivity|].
  destruct (nth_error l idx) as [alert|]; [|reflexivity].
  destruct (is_false_positive alert fps) eqn:E.
  - now rewrite IH, remove_keep.
  - apply IH.
Qed.

(** The loop has run to its end once the position has passed the list:
    more fuel changes nothing. *)
Lemma ignore_loop_fuel (fuel extra idx : nat) (l : list string) :
  List.length l <= idx + fuel ->
  ignore_loop (fuel + extra) idx l fps = ignore_loop fuel idx l fps.
Proof.
  revert idx l; induction fuel as [|fuel IH]; intros idx l Hlen.
  - simpl. destruct extra; simpl; [reflexivity|].
    destruct (nth_error l idx) eqn:E; [|reflexivity].
    assert (idx < List.length l) by (apply nth_error_Some; congruence). lia.
  - simpl. destruct (nth_error l idx) as [alert|]; [|reflexivity].
    destruct (is_false_positive alert fps).
    + apply IH. pose proof (remove_length alert l). lia.
    + apply IH. lia.
Qed.

(** The fuel [ignore_false_positives] gives the loop lets it run to its
    end. *)
Lemma ignore_false_positives_terminates (extra : nat) (l : list string) :
  ignore_loop (List.length l + extra) 0 l fps = ignore_false_positives l fps.
Proof. apply ignore_loop_fuel. lia. Qed.

(** Every message that matches no rule survives, in its place. *)
Lemma ignore_false_positives_keep (l : list string) :
  filter (survives fps) (ignore_false_positives l fps) = filter (survives fps) l.
Proof. apply ignore_loop_keep. Qed.






End FilterFacts.

(** ** The main JSON parser *)

Lemma for_each_app {A S : Type} (body : S -> A -> result S) (l1 l2 : list A) (s : S) :
  for_each (l1 ++ l2)%list body s = (s' <- for_each l1 body s ;; for_each l2 body s').
Proof.
  revert s; induction l1 as [|x l1 IH]; intros s; simpl; [reflexivity|].
  destruct (body s x); simpl; [apply IH | reflexivity].
Qed.

Section ParserFacts.
Import PyStr WPScanJsonParser Buckets.

Variable fps : list string.

Lemma the_list_listed (r : option (list string)) :
  r <> None -> the_list r = Ok (listed r).
Proof. destruct r; [reflexivity | congruence]. Qed.

Lemma component_warnings_of (cs : list Component.t) (c : Component.t) :
  Component.get_warnings c <> None ->
  component_warnings (parser fps cs) c = Ok (warnings_of fps c).
Proof.
  intros H. unfold component_warnings, warnings_of, lone_special.
  rewrite (the_list_listed _ H). simpl.
  destruct (ignore_false_positives _ fps) as [|w [|w' l]]; reflexivity.
Qed.

Lemma get_infos_from (all cs : list Component.t) (acc : list string) :
  Forall returns_lists cs ->
  for_each cs
    (fun infos component =>
       own <- the_list (Component.get_infos component) ;;
       a <- the_list (Component.get_alerts component) ;;
       w <- the_list (Component.get_warnings component) ;;
       Ok ((infos ++ own) ++
           map (fun alert => (FALSE_POSITIVE ++ alert)%string)
               (filter (fun alert =>
                          is_false_positive alert (false_positives_strings (parser fps all)))
                       (a ++ w)))%list)
    acc
  = Ok (acc ++ flat_map (infos_of fps) cs)%list.
Proof.
  intros H; revert acc; induction H as [|c cs [Hi [Hw Ha]] _ IH]; intros acc; simpl.
  - now rewrite app_nil_r.
  - rewrite (the_list_listed _ Hi), (the_list_listed _ Ha), (the_list_listed _ Hw).
    simpl. rewrite IH. unfold infos_of, alerts_and_warnings.
    now rewrite <- !app_assoc.
Qed.

Lemma get_warnings_from (all cs : list Component.t) (acc : list string) :
  Forall returns_lists cs ->
  for_each cs
    (fun warnings component =>
       cw <- component_warnings (parser fps all) component ;; Ok (warnings ++ cw)%list)
    acc
  = Ok (acc ++ flat_map (warnings_of fps) cs)%list.
Proof.
  intros H; revert acc; induction H as [|c cs [Hi [Hw Ha]] _ IH]; intros acc; simpl.
  - now rewrite app_nil_r.
  - rewrite (component_warnings_of all c Hw). simpl. rewrite IH.
    now rewrite <- app_assoc.
Qed.

Lemma get_alerts_from (all cs : list Component.t) (acc : list string) :
  Forall returns_lists cs ->
  for_each cs
    (fun alerts component =>
       a <- the_list (Component.get_alerts component) ;;
       Ok (alerts ++ ignore_false_positives a (false_positives_strings (parser fps all)))%list)
    acc
  = Ok (acc ++ flat_map (alerts_of fps) cs)%list.
Proof.
  intros H; revert acc; induction H as [|c cs [Hi [Hw Ha]] _ IH]; intros acc; simpl.
  - now rewrite app_nil_r.
  - rewrite (the_list_listed _ Ha). simpl. rewrite IH. unfold alerts_of.
    now rewrite <- app_assoc.
Qed.

Lemma flat_map_length_sum {A B} (f : A -> list B) (l : list A) :
  List.length (flat_map f l) = list_sum (map (fun x => List.length (f x)) l).
Proof.
  induction l as [|x l IH]; simpl; [reflexivity|]. now rewrite length_app, IH.
Qed.






End ParserFacts.

Section ParserClaims.
Import PyStr WPScanJsonParser Buckets.




(** C3, at two matching alerts in a row: the loop removes the first, steps
    over the second, and returns it although a rule matches it. *)
Theorem ignore_false_positives_steps_over :
  is_false_positive xss_foo ["XSS"] = true /\
  is_false_positive xss_bar ["XSS"] = true /\
  ignore_false_positives [xss_foo; xss_bar] ["XSS"] = [xss_bar].
Proof. repeat split; reflexivity. Qed.

(** C4, at the same two alerts: a second pass of the filter removes the alert
    the first pass left, so the two results differ. *)
Theorem ignore_false_positives_second_pass :
  ignore_false_positives [xss_foo; xss_bar] ["XSS"] = [xss_bar] /\
  ignore_false_positives (ignore_false_positives [xss_foo; xss_bar] ["XSS"]) ["XSS"]
  = [].
Proof. split; reflexivity. Qed.

(** C5: a component whose warnings, once filtered, are the single message
    that says the version could not be determined by WPScan adds nothing to
    the warning bucket, whatever the rules: alone it gives the empty bucket,
    and among other components the bucket is the one they give without it. *)
Theorem lone_version_warning_cleared
  (fps ws : list string) (c : Component.t) (m : string)
  (before after : list Component.t) :
  Component.get_warnings c = Some ws ->
  ignore_false_positives ws fps = [m] ->
  contains BOILERPLATE m = true ->
  get_warnings {| false_positives_strings := fps; components := [c] |} = Ok [] /\
  get_warnings {| false_positives_strings := fps;
                  components := (before ++ c :: after)%list |}
  = get_warnings {| false_positives_strings := fps;
                    components := (before ++ after)%list |}.
Proof.
  intros Hws Hm Hb.
  assert (contains SPECIAL_WARNING m = true) as Hs.
  { apply (contains_shorter SPECIAL_WARNING " by WPScan"). exact Hb. }
  assert (forall all, component_warnings
            {| false_positives_strings := fps; components := all |} c = Ok []) as Hc.
  { intros all. unfold component_warnings. rewrite Hws. simpl.
    rewrite Hm, Hs. reflexivity. }
  split.
  - unfold get_warnings; simpl. rewrite Hc. reflexivity.
  - unfold get_warnings; simpl. rewrite !for_each_app. simpl.
    destruct (for_each before _ []) as [acc|e]; simpl; [|reflexivity].
    unfold component_warnings at 1. rewrite Hws. simpl. rewrite Hm, Hs. simpl.
    rewrite app_nil_r. reflexivity.
Qed.

(** C5 at the component that only warns the boilerplate, under a rule that
    matches nothing. *)
Lemma lone_version_warning_cleared_witness :
  Component.get_warnings undetermined_only = Some [boilerplate_warning] /\
  ignore_false_positives [boilerplate_warning] ["XSS"] = [boilerplate_warning] /\
  contains BOILERPLATE boilerplate_warning = true /\
  get_warnings {| false_positives_strings := ["XSS"];
                  components := [undetermined_only] |} = Ok [].
Proof.
  split; [reflexivity|]. split; [reflexivity|]. split; [reflexivity|].
  exact (proj1 (lone_version_warning_cleared ["XSS"] [boilerplate_warning]
                  undetermined_only boilerplate_warning [] []
                  eq_refl eq_refl eq_refl)).
Defined.

End ParserClaims.

(** ** The transcript parser *)

Section CliFacts.
Import PyStr Cli Transcript Shape.

Lemma accepts_ok {A : Type} (a : A) : accepts (Ok a).
Proof. discriminate. Qed.

Lemma accepts_bind {A B : Type} (r : result A) (k : A -> result B) :
  accepts r -> (forall a, accepts (k a)) -> accepts (bind r k).
Proof.
  unfold accepts. intros Hr Hk. destruct r as [a|e]; simpl; [apply Hk|].
  intros H. apply Hr. now injection H as ->.
Qed.

Lemma accepts_for_each {A S : Type} (body : S -> A -> result S) (l : list A) :
  (forall s x, accepts (body s x)) -> forall s, accepts (for_each l body s).
Proof.
  intros Hb; induction l as [|x l IH]; intros s; simpl; [apply accepts_ok|].
  apply accepts_bind; [apply Hb | exact IH].
Qed.

Lemma accepts_has_title (m : string) : accepts (has_title m).
Proof. unfold has_title. destruct (splitlines m); discriminate. Qed.

Lemma accepts_filter_r (test : string -> result bool) (l : list string) :
  (forall m, accepts (test m)) -> accepts (filter_r test l).
Proof.
  intros Ht; induction l as [|m l IH]; simpl.
  - apply accepts_ok.
  - apply accepts_bind; [apply Ht|]. intros b.
    apply accepts_bind; [exact IH|]. intros ms. apply accepts_ok.
Qed.

(** The name [is_false_positive] is looked up for the first vulnerability of
    a compound block. *)
Lemma real_vulnerabilities (fps vulnerabilities : list string) :
  filter_r (fun v => is_false_positive <- is_false_positive ;;
                     Ok (negb (is_false_positive v fps))) vulnerabilities
  = match vulnerabilities with
    | [] => Ok []
    | _ :: _ => Raise NameError
    end.
Proof. destruct vulnerabilities; reflexivity. Qed.

Lemma accepts_step (fps : list string) (st : state) (line : string) :
  accepts (step fps st line).
Proof.
  unfold step.
  destruct (parse_cli_toogle (strip line) (warning_on st) (alert_on st)) as [w a].
  destruct (negb (is_empty (strip (re_sub_color (strip line)))) || _);
    [apply accepts_ok|].
  destruct ((a || w) && _).
  - apply accepts_bind; [apply accepts_filter_r, accepts_has_title|].
    intros vulnerabilities.
    apply accepts_bind.
    + apply accepts_filter_r. intros m.
      apply accepts_bind; [apply accepts_has_title|].
      intros b; apply accepts_ok.
    + intros rest. rewrite real_vulnerabilities.
      destruct vulnerabilities; simpl; [apply accepts_ok | discriminate].
  - destruct w; apply accepts_ok.
Qed.

(** C8: the transcript parser raises the format error exactly on the inputs
    that hold no marker [[+]]: an input without the marker is refused with
    that error, and an input with the marker never is, whatever else it
    holds. *)
Theorem parse_cli_format_error (wpscan_output : string) (false_positives : list string) :
  parse_cli wpscan_output false_positives = Raise ValueError
  <-> contains "[+]" wpscan_output = false.
Proof.
  unfold parse_cli. destruct (contains "[+]" wpscan_output); simpl.
  - split; [|discriminate]. intros H. exfalso. revert H.
    apply accepts_bind.
    + apply accepts_for_each. intros s x. apply accepts_step.
    + intros st. apply accepts_ok.
  - split; reflexivity.
Qed.

(** C6, at the transcript of the claim: stripped of their colours the lines
    of the block are those of the two-vulnerability block, and the yellow
    markers leave the warning toggle up and the alert toggle down, while the
    markers without colour raise the alert toggle.  Either way the parser
    reaches the count of the vulnerabilities that no rule matches, looks up
    the name [is_false_positive], which the module does not bind, and raises
    [NameError] whatever the rules: no bucket is returned. *)
Theorem two_vulnerabilities_are_lost (false_positives : list string) :
  map (fun l => re_sub_color (strip l)) block_lines
  = [ "[!] Title: X"; "[!] 2 vulnerabilities identified:"; "|";
      "| [!] Title: CVE-1"; "|"; "| [!] Title: CVE-2" ] /\
  fold_left (fun t line => parse_cli_toogle (strip line) (fst t) (snd t))
    block_lines (false, false) = (true, false) /\
  fold_left (fun t line => parse_cli_toogle (strip line) (fst t) (snd t))
    [ "[!] Title: X"; "[!] 2 vulnerabilities identified:"; " |";
      " | [!] Title: CVE-1"; " |"; " | [!] Title: CVE-2" ] (false, false)
  = (false, true) /\
  parse_cli two_vulnerabilities false_positives = Raise NameError /\
  parse_cli two_vulnerabilities_plain false_positives = Raise NameError.
Proof.
  split; [vm_compute; reflexivity|].
  split; [vm_compute; reflexivity|].
  split; [vm_compute; reflexivity|].
  split; vm_compute; reflexivity.
Qed.

End CliFacts.

(** ** The rendering of a vulnerability *)

Section RenderingFacts.
Import PyStr PyVal Vulnerability Rendering.

Lemma append_assoc (a b c : string) : (a ++ b) ++ c = a ++ b ++ c.
Proof. induction a as [|x a IH]; simpl; [reflexivity | now rewrite IH]. Qed.

Lemma append_empty_r (a : string) : a ++ EmptyString = a.
Proof. induction a as [|x a IH]; simpl; [reflexivity | now rewrite IH]. Qed.

(** A loop that appends one text for each element appends their
    concatenation. *)
Lemma for_each_iadd (f : pyval -> string) (l : list pyval) (a : string) :
  for_each l (fun alert x => iadd_str alert (f x)) (PStr a)
  = Ok (PStr (a ++ glue (map f l))).
Proof.
  revert a; induction l as [|x l IH]; intros a; simpl.
  - now rewrite append_empty_r.
  - rewrite IH. now rewrite append_assoc.
Qed.

Lemma add_reference_group (references : pyval) (key : string) (links : list pyval)
  (a : string) :
  getitem references (PStr key) = Ok (PList links) ->
  add_reference references (PStr a) (PStr key)
  = Ok (PStr (a ++ group_lines (key, links))).
Proof.
  intros H. unfold add_reference. rewrite H. simpl.
  unfold group_lines, reference_line; simpl.
  destruct (String.eqb key "cve"); [apply for_each_iadd|].
  destruct (String.eqb key "wpvulndb"); apply for_each_iadd.
Qed.

Lemma lookup_group (groups : list (string * list pyval)) (g : string * list pyval) :
  NoDup (map fst groups) -> In g groups ->
  lookup (fst g) (map (fun g => (fst g, PList (snd g))) groups) = Some (PList (snd g)).
Proof.
  induction groups as [|h groups IH]; simpl; intros Hnd Hin; [contradiction|].
  inversion Hnd as [|? ? Hnot Hnd']; subst.
  destruct Hin as [->|Hin].
  - now rewrite String.eqb_refl.
  - destruct (String.eqb_spec (fst g) (fst h)) as [E|_]; [|now apply IH].
    exfalso; apply Hnot. rewrite <- E. now apply in_map.
Qed.

Lemma add_references (groups some : list (string * list pyval)) (a : string) :
  NoDup (map fst groups) -> incl some groups ->
  for_each (map (fun g => PStr (fst g)) some) (add_reference (as_groups groups)) (PStr a)
  = Ok (PStr (a ++ glue (map group_lines some))).
Proof.
  intros Hnd; revert a; induction some as [|g some IH]; intros a Hincl; simpl.
  - now rewrite append_empty_r.
  - rewrite (add_reference_group _ (fst g) (snd g)).
    + simpl. rewrite IH; [|intros x Hx; apply Hincl; now right].
      destruct g; simpl. now rewrite append_assoc.
    + simpl. rewrite (lookup_group groups g Hnd); [reflexivity|].
      apply Hincl; now left.
Qed.

Lemma glue_in (x : string) (l : list string) :
  In x l -> exists before after, glue l = before ++ x ++ after.
Proof.
  induction l as [|y l IH]; simpl; intros H; [contradiction|].
  destruct H as [->|H].
  - exists EmptyString, (glue l). reflexivity.
  - destruct (IH H) as (b & a & E). exists (y ++ b), a.
    now rewrite E, append_assoc.
Qed.

Lemma contains_glue (needle x : string) (l : list string) :
  In x l -> contains needle x = true -> contains needle (glue l) = true.
Proof.
  intros Hin Hc. destruct (glue_in x l Hin) as (b & a & ->).
  now apply contains_later, contains_longer.
Qed.

Lemma rendering (v : Vulnerability.t) (t : string)
  (groups : list (string * list pyval)) :
  title v = PStr t -> has_references v groups ->
  get_alerts v
  = Ok [PStr (t ++ cvss_line v ++ fixed_line v ++ reference_lines groups)].
Proof.
  intros Ht [Hnd Hrefs]. unfold get_alerts, cvss_line, fixed_line. rewrite Ht.
  assert (forall a : string,
    (alert <- (if truthy (references v)
               then
                 refs <- iter (references v) ;;
                 for_each refs (add_reference (references v))
                   (PStr (a ++ NL ++ "References: "))
               else Ok (PStr a)) ;;
     Ok [alert])
    = Ok [PStr (a ++ reference_lines groups)]) as Hr.
  { intros a. destruct Hrefs as [E|[-> E]].
    - rewrite E. destruct groups as [|g groups].
      + simpl. now rewrite append_empty_r.
      + change (truthy (as_groups (g :: groups))) with true. cbv iota.
        unfold as_groups at 1. unfold iter. cbn [bind]. rewrite map_map.
        rewrite (add_references (g :: groups) (g :: groups) _ Hnd (incl_refl _)).
        cbn [bind]. unfold reference_lines. now rewrite !append_assoc.
    - rewrite E. simpl. now rewrite append_empty_r. }
  destruct (truthy (cvss v)); destruct (truthy (fixed_in v));
    cbn [iadd_str bind]; rewrite Hr; cbn [append]; now rewrite ?append_assoc.
Qed.

End RenderingFacts.

Section RenderingClaims.
Import PyStr PyVal Vulnerability Rendering.

Lemma contains_self (a : string) : contains a a = true.
Proof. rewrite <- (append_empty_r a) at 2. apply contains_here. Qed.

Lemma splitlines_first (t rest : string) :
  single_line t = true ->
  splitlines (t ++ NL ++ rest) = t :: splitlines rest.
Proof.
  induction t as [|c t IH]; simpl in *; intros H.
  - now destruct rest.
  - apply andb_prop in H. destruct H as [Hc Ht].
    apply negb_true_iff in Hc. rewrite Hc, (IH Ht). reflexivity.
Qed.

(** C9, at the record of the claim, whose only key is [references] with the
    CVE number 2020-1234: the constructor raises [TypeError] on it, as on
    every record; and [get_alerts] of the object with its attributes, the
    title being [None] for lack of the key, raises [TypeError] at the first
    line it adds to the title, so no alert is returned and no line holds the
    number.  With a title the same references do give the line of the number
    with the address of the public CVE database. *)
Theorem cve_record_without_title_raises :
  Vulnerability.init cve_only_data = Raise TypeError /\
  get_alerts cve_only_record = Raise TypeError /\
  get_alerts cve_record
  = Ok [PStr ("Foo 1.0 - Stored XSS" ++ NL ++ "Not fixed yet" ++ NL
              ++ "References: " ++ NL ++ "- CVE: " ++ CVE_URL ++ "2020-1234")].
Proof. repeat split; vm_compute; reflexivity. Qed.

(** X25: A vulnerability object with a text for title and references given by
    groups of links renders as exactly one alert; the alert is the title,
    then the score line when there is a score, then the fixed-in line or the
    line that says it is not fixed yet, then the reference lines, one for
    each link, group after group; so its first line is the title and it holds
    the score, the fix and each reference line.  The object whose references
    are the one CVE number 2020-1234 renders the line of that number with the
    address of the public CVE database. *)
Theorem vulnerability_renders_one_alert :
  (forall (v : Vulnerability.t) (t : string) (groups : list (string * list pyval)),
      title v = PStr t -> has_references v groups ->
      exists alert rest,
        get_alerts v = Ok [PStr alert] /\
        alert = t ++ cvss_line v ++ fixed_line v ++ reference_lines groups /\
        alert = t ++ NL ++ rest /\
        (single_line t = true -> hd_error (splitlines alert) = Some t) /\
        (truthy (cvss v) = true -> contains (str (cvss v)) alert = true) /\
        (truthy (fixed_in v) = true ->
         contains ("Fixed in: " ++ str (fixed_in v)) alert = true) /\
        (truthy (fixed_in v) = false -> contains "Not fixed yet" alert = true) /\
        (forall g link, In g groups -> In link (snd g) ->
                        contains (reference_line (fst g) link) alert = true)) /\
  (exists alert,
      get_alerts cve_record = Ok [PStr alert] /\
      In ("- CVE: " ++ CVE_URL ++ "2020-1234") (splitlines alert)).
Proof.
  split.
  - intros v t groups Ht Hrefs.
    assert (exists rest,
               t ++ cvss_line v ++ fixed_line v ++ reference_lines groups
               = t ++ NL ++ rest) as [rest Hrest].
    { unfold cvss_line, fixed_line.
      destruct (truthy (cvss v)); destruct (truthy (fixed_in v)); simpl;
        eexists; reflexivity. }
    exists (t ++ cvss_line v ++ fixed_line v ++ reference_lines groups), rest.
    split; [now apply rendering|]. split; [reflexivity|]. split; [exact Hrest|].
    split; [|split; [|split; [|split]]].
    + intros Hs. rewrite Hrest, (splitlines_first _ _ Hs). reflexivity.
    + intros Hc. apply contains_later. unfold cvss_line. rewrite Hc.
      apply contains_longer. apply (contains_later _ NL).
      apply (contains_later _ "CVSS: "). apply contains_self.
    + intros Hf. do 2 apply contains_later. unfold fixed_line. rewrite Hf.
      apply contains_longer. apply (contains_later _ NL). apply contains_self.
    + intros Hf. do 2 apply contains_later. unfold fixed_line. rewrite Hf.
      apply contains_longer. apply (contains_later _ NL). apply contains_self.
    + intros g link Hg Hl. do 3 apply contains_later.
      destruct groups as [|g0 groups]; [contradiction|].
      unfold reference_lines. apply (contains_later _ NL).
      apply (contains_later _ "References: ").
      apply (contains_glue _ (group_lines g)); [now apply in_map|].
      unfold group_lines.
      apply (contains_glue _ (reference_line (fst g) link)); [now apply in_map|].
      apply contains_self.
  - eexists. split; [vm_compute; reflexivity|]. vm_compute. auto.
Qed.

(** X25 at the titled record of the CVE number: its alert begins with its
    title. *)
Lemma vulnerability_renders_one_alert_witness :
  title cve_record = PStr "Foo 1.0 - Stored XSS" /\
  has_references cve_record [("cve", [PStr "2020-1234"])] /\
  exists alert,
    get_alerts cve_record = Ok [PStr alert] /\
    hd_error (splitlines alert) = Some "Foo 1.0 - Stored XSS".
Proof.
  assert (has_references cve_record [("cve", [PStr "2020-1234"])]) as H.
  { split; [|left; reflexivity].
    constructor; [intros []|constructor]. }
  split; [reflexivity|]. split; [exact H|].
  destruct (proj1 vulnerability_renders_one_alert cve_record _ _ eq_refl H)
    as (alert & rest & Ha & _ & _ & Hfirst & _).
  exists alert. split; [exact Ha|]. apply Hfirst. reflexivity.
Defined.

End RenderingClaims.

(** ** Items of the structured report *)

Section ItemClaims.
Import PyStr PyVal Inputs.

Lemma bind_ok {A : Type} (r : result A) : (a <- r ;; Ok a) = r.
Proof. now destruct r. Qed.

(** The branch of [get_warnings] for an unknown version is never taken: the
    warnings of an item are those of [_get_warnings]. *)
Lemma item_warnings_are_issue_warnings (item : WPItem.t) :
  WPItem.get_warnings item = WPItem._get_warnings item.
Proof.
  unfold WPItem.get_warnings, obj_truthy; simpl.
  destruct (WPItem._get_warnings item); reflexivity.
Qed.

(** The alerts of an item are always those of its finding, then those of its
    version. *)
Lemma item_alerts_are_not_withheld (item : WPItem.t) :
  WPItem.get_alerts item
  = (a <- Finding.get_alerts (WPItem.finding item) ;;
     v <- WPItemVersion.get_alerts (WPItem.version item) ;;
     Ok (a ++ v)%list).
Proof. reflexivity. Qed.

(** C1, at the outdated plugin with one known vulnerability and no version:
    building the plugin raises [TypeError], as building any item does, so
    that no method can be asked.  On the plugin object with the attributes
    of that finding, the item keeps the vulnerability among its alerts and
    its only warning is the one that says the version is out of date, with
    neither the notice that the version is undetermined nor the
    vulnerability; the methods of the plugin, which label those messages,
    raise [TypeError].  For every item the warnings are those of
    [_get_warnings] alone, the version object being true in the test
    whatever it holds. *)
Theorem unversioned_plugin_keeps_alerts :
  Plugin.init outdated_plugin = Raise TypeError /\
  WPItem.get_alerts unversioned_item
  = Ok [PStr ("Foo 1.0 - Stored XSS" ++ NL ++ "Not fixed yet")] /\
  WPItem.get_warnings unversioned_item
  = Ok [PStr ("foo" ++ NL ++ "The version is out of date, the latest version is 2.0")] /\
  Plugin.get_alerts unversioned_item = Raise TypeError /\
  Plugin.get_warnings unversioned_item = Raise TypeError /\
  (forall item : WPItem.t, WPItem.get_warnings item = WPItem._get_warnings item).
Proof.
  split; [reflexivity|]. split; [reflexivity|]. split; [reflexivity|].
  split; [reflexivity|]. split; [reflexivity|].
  exact item_warnings_are_issue_warnings.
Qed.

(** The notice that [WPItem.get_warnings] composes does not hold the phrase
    by which the main parser recognises the special warning. *)
Lemma undetermined_notice_is_not_special :
  contains WPScanJsonParser.SPECIAL_WARNING (WPItem.UNDETERMINED (PStr "foo")) = false.
Proof. vm_compute. reflexivity. Qed.

(** C10, as stated, fails: a timthumb with nothing to report returns the
    empty list of warnings, not [None]. *)
Lemma timthumb_warnings_are_a_list :
  Timthumb.get_warnings quiet_timthumb = Ok (Some []) /\
  Timthumb.get_warnings quiet_timthumb <> Ok None.
Proof. split; [reflexivity | discriminate]. Qed.

(** C10, amended: when the item yields no warning, [get_warnings] of a
    plugin, a theme and a main theme returns [None]; when the item yields no
    alert, so does their [get_alerts]; when the finding of a timthumb yields
    no alert, its [get_alerts] returns [None]; and [get_warnings] of a
    timthumb always returns the empty list. *)
Theorem quiet_findings_return_none
  (item : WPItem.t) (theme : Theme.t) (timthumb : Timthumb.t) :
  (WPItem.get_warnings item = Ok [] -> Plugin.get_warnings item = Ok None) /\
  (WPItem.get_alerts item = Ok [] -> Plugin.get_alerts item = Ok None) /\
  (WPItem.get_warnings (Theme.item theme) = Ok [] ->
   Theme.get_warnings theme = Ok None /\ MainTheme.get_warnings theme = Ok None) /\
  (WPItem.get_alerts (Theme.item theme) = Ok [] ->
   Theme.get_alerts theme = Ok None /\ MainTheme.get_alerts theme = Ok None) /\
  (Finding.get_alerts (Timthumb.finding timthumb) = Ok [] ->
   Timthumb.get_alerts timthumb = Ok None) /\
  Timthumb.get_warnings timthumb = Ok (Some []).
Proof.
  repeat split.
  - intros H. unfold Plugin.get_warnings. now rewrite H.
  - intros H. unfold Plugin.get_alerts. now rewrite H.
  - unfold Theme.get_warnings. now rewrite H.
  - unfold MainTheme.get_warnings, Theme.get_warnings. now rewrite H.
  - unfold Theme.get_alerts. now rewrite H.
  - unfold MainTheme.get_alerts, Theme.get_alerts. now rewrite H.
  - intros H. unfold Timthumb.get_alerts. now rewrite H.
Qed.

(** The amended C10 at an item, a theme and a timthumb with nothing to
    report. *)
Lemma quiet_findings_return_none_witness :
  WPItem.get_warnings quiet_item = Ok [] /\
  WPItem.get_alerts quiet_item = Ok [] /\
  Finding.get_alerts (Timthumb.finding quiet_timthumb) = Ok [] /\
  Plugin.get_warnings quiet_item = Ok None /\
  Plugin.get_alerts quiet_item = Ok None /\
  MainTheme.get_warnings quiet_theme = Ok None /\
  MainTheme.get_alerts quiet_theme = Ok None /\
  Timthumb.get_alerts quiet_timthumb = Ok None.
Proof.
  destruct (quiet_findings_return_none quiet_item quiet_theme quiet_timthumb)
    as (Hpw & Hpa & Htw & Hta & Hma & _).
  split; [reflexivity|]. split; [reflexivity|]. split; [reflexivity|].
  split; [exact (Hpw eq_refl)|]. split; [exact (Hpa eq_refl)|].
  split; [exact (proj2 (Htw eq_refl))|]. split; [exact (proj2 (Hta eq_refl))|].
  exact (Hma eq_refl).
Defined.

End ItemClaims.

(** ** The structured report *)

Section JsonClaims.
Import PyStr PyVal Inputs JsonReport.

(** The line that names the target cannot be built from the report that
    holds only the target address. *)
Lemma parse_target_needs_effective_url :
  parse_target only_target = Raise KeyError.
Proof. reflexivity. Qed.

(** C7, as stated, fails: parsing the report that holds only the target
    address does not return an info bucket of one line. *)
Lemma only_target_has_no_info_line :
  ~ exists line, parse_json only_target = Ok ([line], [], []).
Proof. intros [line H]. discriminate H. Qed.

(** C7, amended: parsing the report whose target address is null raises the
    format error, and parsing the report that holds only a target address
    returns three empty buckets. *)
Theorem parse_json_target_url :
  parse_json no_target = Raise ValueError /\
  parse_json only_target = Ok ([], [], []).
Proof. split; reflexivity. Qed.

End JsonClaims.

(** * Further properties *)

(** ** The false-positive filter, in general *)

Section FilterShape.
Import PyStr WPScanJsonParser Buckets Shape.

Variable fps : list string.

Lemma subseq_refl {A : Type} (l : list A) : subseq l l.
Proof. induction l; [constructor | now apply subseq_keep]. Qed.

Lemma subseq_trans {A : Type} (l m n : list A) :
  subseq l m -> subseq m n -> subseq l n.
Proof.
  intros Hlm Hmn; revert l Hlm; induction Hmn; intros l' Hlm.
  - exact Hlm.
  - constructor. now apply IHHmn.
  - inversion Hlm; subst.
    + apply subseq_skip. now apply IHHmn.
    + apply subseq_keep. now apply IHHmn.
Qed.

Lemma remove_subseq (x : string) (l : list string) : subseq (remove x l) l.
Proof.
  induction l as [|y l IH]; simpl; [constructor|].
  destruct (String.eqb x y).
  - apply subseq_skip. apply subseq_refl.
  - now apply subseq_keep.
Qed.

Lemma ignore_loop_subseq (fuel idx : nat) (l : list string) :
  subseq (ignore_loop fuel idx l fps) l.
Proof.
  revert idx l; induction fuel as [|fuel IH]; intros idx l; simpl;
    [apply subseq_refl|].
  destruct (nth_error l idx) as [alert|]; [|apply subseq_refl].
  destruct (is_false_positive alert fps).
  - eapply subseq_trans; [apply IH | apply remove_subseq].
  - apply IH.
Qed.

(** X1: The filter adds and reorders nothing, and keeps every message that
    matches no rule. *)
Theorem ignore_false_positives_only_drops_matches (l : list string) :
  subseq (ignore_false_positives l fps) l /\
  filter (survives fps) (ignore_false_positives l fps) = filter (survives fps) l.
Proof.
  split; [apply ignore_loop_subseq | apply ignore_false_positives_keep].
Qed.

Lemma remove_first_match (pre rest : list string) (x : string) :
  Forall (fun m => survives fps m = true) pre ->
  is_false_positive x fps = true ->
  remove x (pre ++ x :: rest) = (pre ++ rest)%list.
Proof.
  intros Hpre Hx; induction Hpre as [|y pre Hy _ IH]; simpl.
  - now rewrite String.eqb_refl.
  - destruct (String.eqb_spec x y) as [->|_].
    + unfold survives in Hy. rewrite Hx in Hy. discriminate.
    + now rewrite IH.
Qed.

Lemma nth_error_middle {A : Type} (pre rest : list A) :
  nth_error (pre ++ rest) (List.length pre) = nth_error rest 0.
Proof. induction pre; simpl; auto. Qed.

Lemma ignore_loop_past (fuel idx : nat) (l : list string) :
  List.length l <= idx -> ignore_loop fuel idx l fps = l.
Proof.
  intros H. destruct fuel; simpl; [reflexivity|].
  apply nth_error_None in H. now rewrite H.
Qed.

Lemma ignore_loop_exact (fuel : nat) :
  forall pre rest : list string,
    Forall (fun m => survives fps m = true) pre ->
    no_adjacent fps rest = true ->
    List.length rest <= fuel ->
    ignore_loop fuel (List.length pre) (pre ++ rest) fps
    = (pre ++ filter (survives fps) rest)%list.
Proof.
  induction fuel as [|fuel IH]; intros pre rest Hpre Hadj Hlen.
  - destruct rest; [reflexivity | simpl in Hlen; lia].
  - simpl. rewrite nth_error_middle.
    destruct rest as [|x r]; [reflexivity|]. simpl nth_error. cbv iota.
    destruct (is_false_positive x fps) eqn:Hx.
    + rewrite (remove_first_match pre r x Hpre Hx).
      simpl filter. unfold survives at 1. rewrite Hx. simpl.
      destruct r as [|y r'].
      * apply ignore_loop_past. rewrite length_app. simpl. lia.
      * simpl in Hadj. rewrite Hx in Hadj. simpl in Hadj.
        destruct (is_false_positive y fps) eqn:Hy; [discriminate|].
        simpl in Hadj.
        replace (S (List.length pre)) with (List.length (pre ++ [y]))
          by (rewrite length_app; simpl; lia).
        replace (pre ++ y :: r')%list with ((pre ++ [y]) ++ r')%list
          by (now rewrite <- app_assoc).
        rewrite IH.
        -- simpl filter. unfold survives at 2. rewrite Hy. simpl.
           now rewrite <- app_assoc.
        -- apply Forall_app; split; [exact Hpre|].
           constructor; [|constructor]. unfold survives. now rewrite Hy.
        -- destruct r'; [reflexivity|]. simpl in Hadj. exact Hadj.
        -- simpl in Hlen. lia.
    + replace (S (List.length pre)) with (List.length (pre ++ [x]))
        by (rewrite length_app; simpl; lia).
      replace (pre ++ x :: r)%list with ((pre ++ [x]) ++ r)%list
        by (now rewrite <- app_assoc).
      rewrite IH.
      * simpl filter. unfold survives at 2. rewrite Hx. simpl.
        now rewrite <- app_assoc.
      * apply Forall_app; split; [exact Hpre|].
        constructor; [|constructor]. unfold survives. now rewrite Hx.
      * simpl in Hadj. apply andb_prop in Hadj. tauto.
      * simpl in Hlen. lia.
Qed.

(** X2: When no two neighbours match a rule, the filter removes exactly the
    messages that match one. *)
Theorem ignore_false_positives_exact (l : list string) :
  no_adjacent fps l = true ->
  ignore_false_positives l fps = filter (survives fps) l.
Proof.
  intros H. unfold ignore_false_positives.
  apply (ignore_loop_exact (List.length l) [] l); [constructor | exact H | lia].
Qed.

End FilterShape.

Section FilterShapeWitness.
Import PyStr WPScanJsonParser Buckets Shape.

(** X2 at a concrete input. *)
Lemma ignore_false_positives_exact_witness :
  no_adjacent ["XSS"] [xss_foo; "Plugin Warning: bar"; xss_bar] = true /\
  ignore_false_positives [xss_foo; "Plugin Warning: bar"; xss_bar] ["XSS"]
  = ["Plugin Warning: bar"].
Proof.
  split; [reflexivity|].
  exact (ignore_false_positives_exact ["XSS"]
           [xss_foo; "Plugin Warning: bar"; xss_bar] eq_refl).
Defined.

(** X3: A rule that is the empty string matches every message, and no message
    matches an empty rule list. *)
Theorem empty_rule_matches_everything (m : string) (fps : list string) :
  (In EmptyString fps -> is_false_positive m fps = true) /\
  is_false_positive m [] = false.
Proof.
  split; [|reflexivity].
  intros H. unfold is_false_positive. apply existsb_exists.
  exists EmptyString. split; [exact H|]. now destruct m.
Qed.

(** X3 at a concrete input. *)
Lemma empty_rule_matches_everything_witness :
  In EmptyString ["XSS"; EmptyString] /\
  is_false_positive "Plugin Warning: bar" ["XSS"; EmptyString] = true.
Proof.
  split; [right; left; reflexivity|].
  apply (proj1 (empty_rule_matches_everything "Plugin Warning: bar"
                  ["XSS"; EmptyString])).
  right; left; reflexivity.
Defined.

End FilterShapeWitness.

(** ** The main JSON parser, in general *)

Section ParserShape.
Import PyStr WPScanJsonParser Buckets Shape.

(** X4: The parser cannot use a component one of whose methods returns [None]:
    after components that return lists, [get_infos] raises [TypeError] if any
    of the three methods of the next component returns [None], and
    [get_warnings] and [get_alerts] do if their own method does. *)
Theorem parser_refuses_none
  (fps : list string) (before after : list Component.t) (c : Component.t) :
  Forall returns_lists before ->
  (Component.get_infos c = None \/ Component.get_warnings c = None \/
   Component.get_alerts c = None ->
   get_infos (parser fps (before ++ c :: after)%list) = Raise TypeError) /\
  (Component.get_warnings c = None ->
   get_warnings (parser fps (before ++ c :: after)%list) = Raise TypeError) /\
  (Component.get_alerts c = None ->
   get_alerts (parser fps (before ++ c :: after)%list) = Raise TypeError).
Proof.
  intros Hb. repeat split.
  - intros H. unfold get_infos. cbn [components parser]. rewrite for_each_app.
    rewrite (get_infos_from fps _ before [] Hb). cbn [bind for_each].
    destruct (Component.get_infos c) as [i|]; [|reflexivity].
    destruct (Component.get_alerts c) as [a|]; [|reflexivity].
    destruct (Component.get_warnings c) as [w|]; [|reflexivity].
    destruct H as [H|[H|H]]; discriminate.
  - intros H. unfold get_warnings. cbn [components parser]. rewrite for_each_app.
    rewrite (get_warnings_from fps _ before [] Hb). cbn [bind for_each].
    unfold component_warnings. rewrite H. reflexivity.
  - intros H. unfold get_alerts. cbn [components parser]. rewrite for_each_app.
    rewrite (get_alerts_from fps _ before [] Hb). cbn [bind for_each].
    rewrite H. reflexivity.
Qed.

(** X4 at a concrete input. *)
Lemma parser_refuses_none_witness :
  Forall returns_lists [undetermined_only] /\
  get_alerts (parser ["XSS"]
                [undetermined_only;
                 {| Component.get_infos := Some [];
                    Component.get_warnings := Some [];
                    Component.get_alerts := None |}]) = Raise TypeError.
Proof.
  assert (Forall returns_lists [undetermined_only]) as H.
  { constructor; [|constructor]. repeat split; discriminate. }
  split; [exact H|].
  exact (proj2 (proj2 (parser_refuses_none ["XSS"] [undetermined_only] []
                         {| Component.get_infos := Some [];
                            Component.get_warnings := Some [];
                            Component.get_alerts := None |} H)) eq_refl).
Defined.

Lemma no_rule_no_match (l : list string) : no_adjacent [] l = true.
Proof. induction l as [|x [|y r] IH]; simpl in *; auto. Qed.

Lemma no_rule_keeps (l : list string) : ignore_false_positives l [] = l.
Proof.
  unfold ignore_false_positives.
  pose proof (ignore_loop_exact [] (List.length l) [] l (Forall_nil _)
                (no_rule_no_match l) (le_n _)) as H.
  cbn [app List.length] in H. rewrite H. clear H.
  induction l as [|x l IH]; simpl; [reflexivity | now rewrite IH].
Qed.

Lemma flat_map_same {A B : Type} (f g : A -> list B) (l : list A) :
  (forall x, f x = g x) -> flat_map f l = flat_map g l.
Proof. intros H; induction l; simpl; [reflexivity | now rewrite H, IHl]. Qed.

(** X5: Under an empty rule list the parser returns the alerts and the infos of
    its components as they are, in order, and the warnings too but for a
    warning bucket that is one special warning. *)
Theorem parser_without_rules (cs : list Component.t) :
  Forall returns_lists cs ->
  get_alerts (parser [] cs)
  = Ok (flat_map (fun c => listed (Component.get_alerts c)) cs) /\
  get_infos (parser [] cs)
  = Ok (flat_map (fun c => listed (Component.get_infos c)) cs) /\
  get_warnings (parser [] cs)
  = Ok (flat_map (fun c => match listed (Component.get_warnings c) with
                           | [w] => if contains SPECIAL_WARNING w then [] else [w]
                           | l => l
                           end) cs).
Proof.
  intros H. repeat split.
  - unfold get_alerts. cbn [components parser].
    rewrite (get_alerts_from [] cs cs [] H). simpl. f_equal.
    apply flat_map_same. intros c. unfold alerts_of. apply no_rule_keeps.
  - unfold get_infos. cbn [components parser].
    rewrite (get_infos_from [] cs cs [] H). simpl. f_equal.
    apply flat_map_same. intros c. unfold infos_of.
    replace (filter (fun alert => is_false_positive alert []) (alerts_and_warnings c))
      with (@nil string).
    + simpl. now rewrite app_nil_r.
    + induction (alerts_and_warnings c); simpl; auto.
  - unfold get_warnings. cbn [components parser].
    rewrite (get_warnings_from [] cs cs [] H). simpl. f_equal.
    apply flat_map_same. intros c. unfold warnings_of, lone_special.
    rewrite no_rule_keeps.
    destruct (listed (Component.get_warnings c)) as [|w [|w' l]]; reflexivity.
Qed.

(** X5 at a concrete input. *)
Lemma parser_without_rules_witness :
  Forall returns_lists (components xss_report) /\
  get_alerts (parser [] (components xss_report)) = Ok [xss_foo; xss_bar].
Proof.
  assert (Forall returns_lists (components xss_report)) as H.
  { constructor; [|constructor]. repeat split; discriminate. }
  split; [exact H|].
  exact (proj1 (parser_without_rules (components xss_report) H)).
Defined.

End ParserShape.

(** ** Parts of strings *)

Section Parts.
Import PyStr PyVal.

Lemma startswith_split (p s : string) :
  startswith p s = true -> exists rest, s = p ++ rest.
Proof.
  revert s; induction p as [|c p IH]; intros s H; simpl in *.
  - now exists s.
  - destruct s as [|d s]; [discriminate|].
    destruct (Ascii.eqb_spec c d) as [->|_]; [|discriminate].
    destruct (IH s H) as [rest ->]. now exists rest.
Qed.

Lemma contains_split (p s : string) :
  contains p s = true -> exists before after, s = before ++ p ++ after.
Proof.
  induction s as [|d s IH]; simpl; intros H.
  - destruct (startswith p EmptyString) eqn:E; [|discriminate].
    destruct (startswith_split _ _ E) as [rest ->]. now exists EmptyString, rest.
  - destruct (startswith p (String d s)) eqn:E.
    + destruct (startswith_split _ _ E) as [rest ->]. now exists EmptyString, rest.
    + destruct (IH H) as (b & a & ->). now exists (String d b), a.
Qed.

(** What a part of a text holds, the text holds. *)
Lemma contains_within (p l s u v : string) :
  s = u ++ l ++ v -> contains p l = true -> contains p s = true.
Proof.
  intros -> H. destruct (contains_split p l H) as (b & a & ->).
  rewrite !append_assoc. rewrite <- (append_assoc u b).
  apply contains_middle.
Qed.

Lemma contains_tail (a b s : string) :
  contains (a ++ b) s = true -> contains b s = true.
Proof.
  intros H. destruct (contains_split _ _ H) as (x & y & ->).
  rewrite append_assoc, <- (append_assoc x a). apply contains_middle.
Qed.

Lemma lstrip_part (l : string) : exists u, l = u ++ lstrip l.
Proof.
  induction l as [|c l [u IH]]; simpl.
  - now exists EmptyString.
  - destruct (is_space c).
    + exists (String c u). simpl. now rewrite <- IH.
    + now exists EmptyString.
Qed.

Lemma rstrip_part (l : string) : exists v, l = rstrip l ++ v.
Proof.
  induction l as [|c l [v IH]]; simpl.
  - now exists EmptyString.
  - destruct (is_space c && is_empty (rstrip l)).
    + now exists (String c l).
    + exists v. simpl. now rewrite <- IH.
Qed.

Lemma strip_part (l : string) : exists u v, l = u ++ strip l ++ v.
Proof.
  unfold strip. destruct (lstrip_part l) as [u Hu].
  destruct (rstrip_part (lstrip l)) as [v Hv].
  exists u, v. now rewrite <- Hv.
Qed.

Lemma splitlines_parts (n : nat) :
  forall s, String.length s <= n ->
    (forall l0 ls, splitlines s = l0 :: ls -> exists v, s = l0 ++ v) /\
    (forall l, In l (splitlines s) -> exists u v, s = u ++ l ++ v).
Proof.
  induction n as [|n IH]; intros s Hn.
  - destruct s; [|simpl in Hn; lia]. split; [discriminate | intros l []].
  - destruct s as [|c t]; [split; [discriminate | intros l []]|].
    simpl in Hn. assert (String.length t <= n) as Ht by lia.
    destruct (IH t Ht) as [Hfirst Hin].
    simpl. destruct (is_linebreak c).
    + split.
      * intros l0 ls E. injection E as <- _. now exists (String c t).
      * intros l [<-|Hl]; [now exists EmptyString, (String c t)|].
        destruct t as [|c' t']; [destruct Hl|].
        destruct (Ascii.eqb c CR && Ascii.eqb c' LF).
        -- simpl in Ht. assert (String.length t' <= n) as Ht' by lia.
           destruct (proj2 (IH t' Ht') l Hl) as (u & v & ->).
           now exists (String c (String c' u)), v.
        -- destruct (Hin l Hl) as (u & v & E). exists (String c u), v.
           simpl. now rewrite <- E.
    + destruct (splitlines t) as [|l1 ls1] eqn:E.
      * split.
        -- intros l0 ls E0. injection E0 as <- _. now exists t.
        -- intros l [<-|[]]. now exists EmptyString, t.
      * destruct (Hfirst l1 ls1 eq_refl) as [v Hv]. split.
        -- intros l0 ls E0. injection E0 as <- _. exists v. simpl. now rewrite <- Hv.
        -- intros l [<-|Hl].
           ++ exists EmptyString, v. simpl. now rewrite <- Hv.
           ++ destruct (Hin l (or_intror Hl)) as (u & w & E').
              exists (String c u), w. simpl. now rewrite <- E'.
Qed.

(** Every line of a text is a part of it. *)
Lemma splitlines_part (s l : string) :
  In l (splitlines s) -> exists u v, s = u ++ l ++ v.
Proof. apply (splitlines_parts (String.length s) s (le_n _)). Qed.

Lemma has_char_app (q : ascii) (a b : string) :
  has_char q (a ++ b) = has_char q a || has_char q b.
Proof.
  induction a as [|c a IH]; simpl; [reflexivity|].
  now rewrite IH, orb_assoc.
Qed.

End Parts.

(** ** The transcript parser, in general *)

Section LoopFacts.

(** What every turn of a loop keeps, the loop keeps. *)
Lemma for_each_keeps {A S : Type} (P : S -> Prop) (body : S -> A -> result S)
  (l : list A) :
  (forall s x s', In x l -> P s -> body s x = Ok s' -> P s') ->
  forall s s', P s -> for_each l body s = Ok s' -> P s'.
Proof.
  induction l as [|x l IH]; intros Hbody s s' Hs H; simpl in H.
  - now injection H as <-.
  - destruct (body s x) as [s1|e] eqn:E; [|discriminate]. simpl in H.
    apply (IH (fun s x s' Hx => Hbody s x s' (or_intror Hx)) s1 s').
    + exact (Hbody s x s1 (or_introl eq_refl) Hs E).
    + exact H.
Qed.

(** A loop whose turns all succeed and keep [P] succeeds and keeps [P]. *)
Lemma for_each_succeeds {A S : Type} (P : S -> Prop) (body : S -> A -> result S)
  (l : list A) :
  (forall s x, In x l -> P s -> exists s', body s x = Ok s' /\ P s') ->
  forall s, P s -> exists s', for_each l body s = Ok s' /\ P s'.
Proof.
  induction l as [|x l IH]; intros Hbody s Hs; simpl.
  - now exists s.
  - destruct (Hbody s x (or_introl eq_refl) Hs) as (s1 & E & Hs1). rewrite E. simpl.
    apply IH; [|exact Hs1]. intros s0 x0 Hx0. apply Hbody. now right.
Qed.

End LoopFacts.

Section CliShape.
Import PyStr PyVal Cli Transcript Shape.

Lemma filter_r_sound (test : string -> result bool) (l ms : list string) :
  filter_r test l = Ok ms ->
  Forall (fun m => test m = Ok true) ms /\ incl ms l.
Proof.
  revert ms; induction l as [|m l IH]; simpl; intros ms H.
  - injection H as <-. split; [constructor | apply incl_refl].
  - destruct (test m) as [b|e] eqn:Eb; [|discriminate]. simpl in H.
    destruct (filter_r test l) as [ms'|e] eqn:E; [|discriminate]. simpl in H.
    destruct (IH ms' eq_refl) as [Hall Hincl].
    injection H as <-. destruct b.
    + split; [now constructor|].
      intros x [<-|Hx]; [now left | right; now apply Hincl].
    + split; [exact Hall|]. intros x Hx. right. now apply Hincl.
Qed.

(** X6: The toggles of one line: the warning toggle is never lowered; a line that
    says the version could not be determined never leaves the alert toggle
    raised, and raises the warning toggle when the alert toggle was raised
    before; a line that holds ``Insecure'' raises the warning toggle. *)
Theorem parse_cli_toogle_keeps_warning (line : string) (warning_on alert_on : bool) :
  (warning_on = true -> fst (parse_cli_toogle line warning_on alert_on) = true) /\
  (contains "The version could not be determined" line = true ->
   snd (parse_cli_toogle line warning_on alert_on) = false /\
   (alert_on = true -> fst (parse_cli_toogle line warning_on alert_on) = true)) /\
  (contains "Insecure" line = true ->
   fst (parse_cli_toogle line warning_on alert_on) = true).
Proof.
  unfold parse_cli_toogle.
  match goal with |- context [existsb ?f ?l] => destruct (existsb f l) end;
    destruct (contains "33m[!]" line); destruct (contains "31m[!]" line);
    destruct (contains "[!]" line);
    destruct (contains "Insecure" line);
    destruct (contains "The version could not be determined" line);
    destruct warning_on; destruct alert_on; simpl; repeat split; intros;
    try reflexivity; try discriminate.
Qed.

(** X6 at a concrete input. *)
Lemma parse_cli_toogle_keeps_warning_witness :
  contains "The version could not be determined" "| The version could not be determined." = true /\
  parse_cli_toogle "| The version could not be determined." false true = (true, false).
Proof.
  split; [reflexivity|].
  destruct (parse_cli_toogle_keeps_warning "| The version could not be determined."
              false true) as (_ & H & _).
  destruct (H eq_refl) as [Ha Hw]. specialize (Hw eq_refl).
  destruct (parse_cli_toogle "| The version could not be determined." false true)
    as [w a]. simpl in *. now subst.
Defined.

Lemma step_no_alert (fps : list string) (st st' : state) (line : string) :
  alerts st = [] -> step fps st line = Ok st' -> alerts st' = [].
Proof.
  intros Hst H. unfold step in H.
  destruct (parse_cli_toogle (strip line) (warning_on st) (alert_on st)) as [w a].
  destruct (negb (is_empty (strip (re_sub_color (strip line)))) || _);
    [injection H as <-; exact Hst|].
  destruct ((a || w) && _).
  - destruct (filter_r has_title _) as [vulns|e] eqn:Ev; [|discriminate].
    cbn [bind] in H.
    destruct (filter_r (fun m => _) _) as [rest|e]; [|discriminate].
    cbn [bind] in H. rewrite real_vulnerabilities in H.
    destruct vulns as [|v vulns]; [|discriminate]. simpl in H.
    injection H as <-. simpl. rewrite Hst. now destruct a.
  - destruct w; injection H as <-; exact Hst.
Qed.

(** X7: A parsed transcript has no alert: the alerts are only filled from the
    titled sections of a compound block, and a block with such a section
    ends in the look-up of the name [is_false_positive], which fails. *)
Theorem parse_cli_returns_no_alert
  (wpscan_output : string) (false_positives messages warnings alerts : list string) :
  parse_cli wpscan_output false_positives = Ok (messages, warnings, alerts) ->
  alerts = [].
Proof.
  unfold parse_cli. destruct (negb (contains "[+]" wpscan_output)); [discriminate|].
  destruct (for_each _ _ initial) as [st|e] eqn:E; [|discriminate].
  simpl. intros H. injection H as _ _ <-.
  eapply (for_each_keeps (fun st => Cli.alerts st = [])); [| |exact E].
  - intros s x s' _. apply step_no_alert.
  - reflexivity.
Qed.

End CliShape.

Section CliShapeWitness.
Import PyStr PyVal Cli Transcript Shape.

(** X7 at a concrete input. *)
Lemma parse_cli_returns_no_alert_witness :
  parse_cli Samples.outdated_transcript ["XSS"]
  = Ok (["[+] URL: http://x/"],
        ["[!] The version is out of date, the latest version is 2.0"],
        []).
Proof.
  assert (exists alerts,
             parse_cli Samples.outdated_transcript ["XSS"]
             = Ok (["[+] URL: http://x/"],
                   ["[!] The version is out of date, the latest version is 2.0"],
                   alerts)) as [alerts H]
    by (eexists; vm_compute; reflexivity).
  rewrite H. now rewrite (parse_cli_returns_no_alert _ _ _ _ _ H).
Defined.

End CliShapeWitness.

Section CliRules.
Import PyStr PyVal Cli Transcript Shape.

Variables (rules1 rules2 : list string).

Lemma step_ignores_rules (st : state) (line : string) :
  step rules1 st line = step rules2 st line.
Proof.
  unfold step.
  destruct (parse_cli_toogle (strip line) (warning_on st) (alert_on st)) as [w a].
  destruct (negb (is_empty (strip (re_sub_color (strip line)))) || _); [reflexivity|].
  destruct ((a || w) && _); [|reflexivity].
  destruct (filter_r has_title _) as [vulns|e]; [|reflexivity]. cbn [bind].
  destruct (filter_r (fun m => _) _) as [rest|e]; [|reflexivity]. cbn [bind].
  now rewrite !real_vulnerabilities.
Qed.

Lemma for_each_ignores_rules (l : list string) (st : state) :
  for_each l (step rules1) st = for_each l (step rules2) st.
Proof.
  revert st; induction l as [|x l IH]; intros st; simpl; [reflexivity|].
  rewrite step_ignores_rules. destruct (step rules2 st x); simpl; [apply IH|reflexivity].
Qed.

(** X8: The false-positive rules given to the transcript parser have no
    effect: with any two rule lists it fails alike or returns the same three
    buckets.  The rules are only handed to the function [is_false_positive],
    whose name is not bound. *)
Theorem parse_cli_ignores_rules (wpscan_output : string) :
  parse_cli wpscan_output rules1 = parse_cli wpscan_output rules2.
Proof.
  unfold parse_cli. destruct (negb (contains "[+]" wpscan_output)); [reflexivity|].
  now rewrite for_each_ignores_rules.
Qed.

End CliRules.

Section CliQuiet.
Import PyStr PyVal Cli Transcript Shape.

Variable false_positives : list string.

Lemma quiet_line_toggles (line : string) :
  contains "[!]" line = false -> contains "Insecure" line = false ->
  parse_cli_toogle line false false = (false, false).
Proof.
  intros Hm Hi. unfold parse_cli_toogle.
  assert (contains "33m[!]" line = false) as ->.
  { destruct (contains "33m[!]" line) eqn:E; [|reflexivity].
    now rewrite (contains_tail "33m" "[!]" line E) in Hm. }
  assert (contains "31m[!]" line = false) as ->.
  { destruct (contains "31m[!]" line) eqn:E; [|reflexivity].
    now rewrite (contains_tail "31m" "[!]" line E) in Hm. }
  rewrite Hm, Hi. simpl. now rewrite andb_false_r.
Qed.

Lemma quiet_step (st : state) (line : string) :
  contains "[!]" (strip line) = false ->
  contains "Insecure" (strip line) = false ->
  warnings st = [] /\ alerts st = [] /\ warning_on st = false /\ alert_on st = false ->
  exists st',
    step false_positives st line = Ok st' /\
    (warnings st' = [] /\ alerts st' = [] /\
     warning_on st' = false /\ alert_on st' = false).
Proof.
  intros Hm Hi (Hw & Ha & Hwo & Hao). unfold step.
  rewrite Hwo, Hao, (quiet_line_toggles _ Hm Hi).
  destruct (negb (is_empty (strip (re_sub_color (strip line)))) || _).
  - eexists; split; [reflexivity|]. simpl. auto.
  - simpl. eexists; split; [reflexivity|]. simpl. auto.
Qed.

Lemma absent_in_part (p l s u v : string) :
  s = u ++ l ++ v -> contains p s = false -> contains p l = false.
Proof.
  intros E H. destruct (contains p l) eqn:C; [|reflexivity].
  now rewrite (contains_within p l s u v E C) in H.
Qed.

(** X9: A transcript that holds neither the marker [[!]] nor the word
    ``Insecure'' is parsed without error into infos alone. *)
Theorem parse_cli_without_marker (wpscan_output : string) :
  contains "[+]" wpscan_output = true ->
  contains "[!]" wpscan_output = false ->
  contains "Insecure" wpscan_output = false ->
  exists messages,
    parse_cli wpscan_output false_positives = Ok (messages, [], []).
Proof.
  intros Hplus Hm Hi. unfold parse_cli. rewrite Hplus. simpl.
  destruct (for_each_succeeds
              (fun st => warnings st = [] /\ alerts st = [] /\
                         warning_on st = false /\ alert_on st = false)
              (step false_positives)
              (splitlines wpscan_output ++ [EmptyString])%list) with (s := initial)
    as (st & E & Hw & Ha & _).
  - intros s x Hx Hs. apply quiet_step; [| |exact Hs].
    + apply in_app_or in Hx. destruct Hx as [Hx|[<-|[]]]; [|reflexivity].
      destruct (splitlines_part _ _ Hx) as (u & v & E).
      destruct (strip_part x) as (u' & v' & E').
      apply (absent_in_part _ _ x u' v' E').
      apply (absent_in_part _ _ wpscan_output u v E Hm).
    + apply in_app_or in Hx. destruct Hx as [Hx|[<-|[]]]; [|reflexivity].
      destruct (splitlines_part _ _ Hx) as (u & v & E).
      destruct (strip_part x) as (u' & v' & E').
      apply (absent_in_part _ _ x u' v' E').
      apply (absent_in_part _ _ wpscan_output u v E Hi).
  - repeat split.
  - rewrite E. simpl. rewrite Hw, Ha. now exists (messages st).
Qed.

End CliQuiet.

Section CliQuietWitness.
Import PyStr PyVal Cli Transcript Shape.

(** X9 at a concrete input. *)
Lemma parse_cli_without_marker_witness :
  contains "[+]" Samples.info_transcript = true /\
  contains "[!]" Samples.info_transcript = false /\
  contains "Insecure" Samples.info_transcript = false /\
  exists messages,
    parse_cli Samples.info_transcript ["URL"] = Ok (messages, [], []).
Proof.
  split; [reflexivity|]. split; [reflexivity|]. split; [reflexivity|].
  exact (parse_cli_without_marker ["URL"] Samples.info_transcript
           eq_refl eq_refl eq_refl).
Defined.

End CliQuietWitness.

Section CliColours.
Import PyStr PyVal Cli Transcript Shape.

Lemma escape_free_app (a b : string) :
  escape_free (a ++ b) = escape_free a && escape_free b.
Proof. unfold escape_free. now rewrite has_char_app, negb_orb. Qed.

Lemma escape_free_part (s l u v : string) :
  s = u ++ l ++ v -> escape_free s = true -> escape_free l = true.
Proof.
  intros -> H. rewrite !escape_free_app in H.
  apply andb_prop in H. destruct H as [_ H]. apply andb_prop in H. tauto.
Qed.

Lemma escape_free_strip (l : string) :
  escape_free l = true -> escape_free (strip l) = true.
Proof.
  destruct (strip_part l) as (u & v & E). now apply (escape_free_part l _ u v).
Qed.

Lemma escape_free_join (l : list string) :
  clean l -> escape_free (join NL l) = true.
Proof.
  unfold clean in *.
  unfold join. induction 1 as [|x l Hx Hl IH]; [reflexivity|].
  destruct l as [|y l]; [exact Hx|].
  change (String.concat NL (x :: y :: l)) with (x ++ NL ++ String.concat NL (y :: l)).
  rewrite !escape_free_app, Hx, IH. reflexivity.
Qed.

(** Stripping the colours leaves no escape character. *)
Lemma re_sub_color_clean (s : string) :
  forall skip, escape_free (re_sub_color_from skip s) = true.
Proof.
  induction s as [|c t IH]; intros skip; [reflexivity|].
  cbn [re_sub_color_from]. destruct skip as [|k]; [|apply IH].
  destruct (color_match (String c t)) as [|k] eqn:E; [|apply IH].
  unfold escape_free. cbn [has_char].
  assert (Ascii.eqb c ESC = false) as ->.
  { simpl in E. destruct (Ascii.eqb c ESC); [discriminate | reflexivity]. }
  apply (IH 0).
Qed.

Lemma clean_filter (f : string -> bool) (l : list string) :
  clean l -> clean (filter f l).
Proof.
  unfold clean in *.
  induction 1 as [|x l Hx Hl IH]; simpl; [constructor|].
  destruct (f x); [now constructor | exact IH].
Qed.

Lemma clean_cut (acc : list string * list string) (l : string) :
  clean (fst acc) -> clean (snd acc) -> escape_free l = true ->
  clean (fst (cut acc l)) /\ clean (snd (cut acc l)).
Proof.
  unfold clean in *.
  destruct acc as [done msg]; simpl; intros Hd Hm Hl.
  destruct (String.eqb (strip l) "|"); simpl.
  - split; [|now constructor].
    apply Forall_app; split; [exact Hd|]. constructor; [|constructor].
    apply escape_free_join. now apply clean_filter.
  - split; [exact Hd|]. apply Forall_app; split; [exact Hm|]. now constructor.
Qed.

Lemma clean_separate (lines : list string) :
  clean lines -> clean (separate lines).
Proof.
  unfold clean in *.
  intros H. unfold separate.
  assert (clean (lines ++ ["|"])%list) as H'.
  { apply Forall_app; split; [exact H|]. constructor; [reflexivity|constructor]. }
  revert H'. generalize (lines ++ ["|"])%list as l.
  assert (clean (fst (@nil string, @nil string)) /\
          clean (snd (@nil string, @nil string))) as Hacc by (split; constructor).
  revert Hacc. generalize (@nil string, @nil string) as acc.
  intros acc Hacc l; revert acc Hacc; induction l as [|x l IH]; intros acc [Hd Hm] Hl.
  - exact Hd.
  - simpl. inversion Hl; subst. apply IH; [|assumption].
    now apply clean_cut.
Qed.

Lemma clean_filter_r (test : string -> result bool) (l ms : list string) :
  filter_r test l = Ok ms -> clean l -> clean ms.
Proof.
  unfold clean in *.
  intros H Hl. destruct (filter_r_sound test l ms H) as [_ Hincl].
  apply Forall_forall. intros x Hx.
  exact (proj1 (Forall_forall _ l) Hl x (Hincl x Hx)).
Qed.

Variable false_positives : list string.

Lemma step_clean (st st' : state) (line : string) :
  clean (messages st) /\ clean (warnings st) /\ clean (alerts st) /\
  clean (message_lines st) ->
  step false_positives st line = Ok st' ->
  clean (messages st') /\ clean (warnings st') /\ clean (alerts st') /\
  clean (message_lines st').
Proof.
  unfold clean in *.
  intros (Hm & Hw & Ha & Hl) H. unfold step in H.
  assert (clean (message_lines st ++ [re_sub_color (strip line)])%list) as Hl'.
  { apply Forall_app; split; [exact Hl|]. constructor; [|constructor].
    apply re_sub_color_clean. }
  assert (escape_free
            (strip (join NL (filter kept
                       (message_lines st ++ [re_sub_color (strip line)])%list))) = true)
    as Hcur.
  { apply escape_free_strip, escape_free_join, clean_filter, Hl'. }
  destruct (parse_cli_toogle (strip line) (warning_on st) (alert_on st)) as [w a].
  destruct (negb (is_empty (strip (re_sub_color (strip line)))) || _).
  { injection H as <-. simpl. auto. }
  destruct ((a || w) && _).
  - destruct (filter_r has_title _) as [vulns|e] eqn:Ev; [|discriminate].
    cbn [bind] in H.
    destruct (filter_r (fun m => _) _) as [rest|e] eqn:Er; [|discriminate].
    cbn [bind] in H.
    pose proof (clean_filter_r _ _ _ Ev (clean_separate _ Hl')) as Hv.
    pose proof (clean_filter_r _ _ _ Er (clean_separate _ Hl')) as Hr.
    pose proof (escape_free_join _ Hr) as Hp.
    assert (clean (if a then (alerts st ++ vulns)%list else alerts st)) as Ha'.
    { destruct a; [apply Forall_app; split|]; assumption. }
    assert (clean (if a then warnings st
                   else if w then (warnings st ++ vulns)%list else warnings st))
      as Hw'.
    { destruct a; [assumption|]. destruct w; [apply Forall_app; split|]; assumption. }
    rewrite real_vulnerabilities in H.
    destruct vulns as [|v vulns]; [|discriminate]. cbn [bind WPItem.nonempty] in H.
    injection H as <-; simpl;
      repeat split; try assumption; try constructor;
      apply Forall_app; split; try assumption;
      constructor; try constructor; try assumption.
  - destruct w; injection H as <-; simpl; repeat split; try assumption;
      try constructor; apply Forall_app; split; try assumption;
      constructor; try constructor; assumption.
Qed.

(** X10: No message of a parsed transcript holds an escape character: the colour
    codes of the scanner never reach the three buckets. *)
Theorem parse_cli_strips_colours
  (wpscan_output : string) (messages warnings alerts : list string) :
  parse_cli wpscan_output false_positives
  = Ok (messages, warnings, alerts) ->
  clean messages /\ clean warnings /\ clean alerts.
Proof.
  unfold clean in *.
  unfold parse_cli. destruct (negb (contains "[+]" wpscan_output)); [discriminate|].
  destruct (for_each _ _ initial) as [st|e] eqn:E; [|discriminate].
  simpl. intros H. injection H as <- <- <-.
  assert (clean (Cli.messages st) /\ clean (Cli.warnings st) /\
          clean (Cli.alerts st) /\ clean (message_lines st)) as (Hm & Hw & Ha & _).
  { eapply (for_each_keeps
              (fun st => clean (Cli.messages st) /\ clean (Cli.warnings st) /\
                         clean (Cli.alerts st) /\ clean (message_lines st)));
      [| |exact E].
    - intros s x s' _. apply step_clean.
    - repeat split; constructor. }
  auto.
Qed.

End CliColours.

Section CliColoursWitness.
Import PyStr PyVal Cli Transcript Shape.

(** X10 at a concrete input. *)
Lemma parse_cli_strips_colours_witness :
  escape_free Samples.outdated_transcript = false /\
  parse_cli Samples.outdated_transcript []
  = Ok (["[+] URL: http://x/"],
        ["[!] The version is out of date, the latest version is 2.0"],
        []) /\
  clean ["[!] The version is out of date, the latest version is 2.0"].
Proof.
  assert (parse_cli Samples.outdated_transcript []
          = Ok (["[+] URL: http://x/"],
                ["[!] The version is out of date, the latest version is 2.0"],
                [])) as H by (vm_compute; reflexivity).
  split; [reflexivity|]. split; [exact H|].
  exact (proj1 (proj2 (parse_cli_strips_colours _ _ _ _ _ H))).
Defined.

End CliColoursWitness.

(** ** The structured report, in general *)

Section JsonShape.
Import PyStr PyVal JsonReport Shape Samples.

Lemma accepts_get (d : pyval) (k : string) (v : pyval) : accepts (get d k v).
Proof. destruct d; discriminate. Qed.

Lemma accepts_get_v (d k v : pyval) : accepts (get_v d k v).
Proof. destruct d; try discriminate. destruct k; discriminate. Qed.

Lemma accepts_getitem (v k : pyval) : accepts (getitem v k).
Proof.
  unfold accepts, getitem. destruct v; try discriminate.
  - destruct (as_index k); [|discriminate].
    destruct (position _ _); [|discriminate].
    destruct (nth_error _ _); discriminate.
  - destruct (as_index k); [|discriminate].
    destruct (position _ _); [|discriminate].
    destruct (nth_error _ _); discriminate.
  - destruct k; try discriminate. destruct (lookup s d); discriminate.
Qed.

Lemma accepts_iter (v : pyval) : accepts (iter v).
Proof. destruct v; discriminate. Qed.

Lemma accepts_contains_str (s : string) (v : pyval) : accepts (contains_str s v).
Proof. destruct v; discriminate. Qed.

Ltac accepted :=
  repeat first
    [ apply accepts_ok
    | apply accepts_get
    | apply accepts_get_v
    | apply accepts_getitem
    | apply accepts_iter
    | apply accepts_contains_str
    | discriminate
    | apply accepts_bind; [|intros ?]
    | match goal with
      | |- accepts (if ?c then _ else _) => destruct c
      | |- accepts (Raise _) => unfold accepts
      end ].

Lemma accepts_parse_confidence (finding : pyval) : accepts (parse_confidence finding).
Proof. unfold parse_confidence. accepted. Qed.

Lemma accepts_parse_warning_wordpress (finding : pyval) :
  accepts (parse_warning_wordpress finding).
Proof.
  unfold parse_warning_wordpress. accepted.
Qed.

Lemma accepts_parse_warning_theme_or_plugin (finding : pyval) :
  accepts (parse_warning_theme_or_plugin finding).
Proof.
  unfold parse_warning_theme_or_plugin. accepted.
Qed.

Lemma accepts_plugin_step (data : pyval) (warnings : list string) (slug : pyval) :
  accepts (plugin_step data warnings slug).
Proof.
  unfold plugin_step. accepted; apply accepts_parse_warning_theme_or_plugin.
Qed.

(** X11: A report that is a mapping is refused with the format error exactly when
    its target address is missing, null or empty; whatever else goes wrong
    later raises another exception. *)
Theorem parse_json_refuses_exactly (d : list (string * pyval)) :
  parse_json (PDict d) = Raise ValueError
  <-> truthy (value_of "target_url" d) = false.
Proof.
  unfold parse_json, value_of.
  destruct d as [|p d]; [simpl; tauto|].
  change (truthy (PDict (p :: d))) with true. cbv [negb].
  set (r := p :: d). cbn [contains_str bind getitem].
  destruct (lookup "target_url" r) as [url|]; cbn [negb bind]; [|simpl; tauto].
  destruct (truthy url); cbn [negb]; [|tauto].
  split; [|discriminate]. intros H. exfalso. revert H.
  match goal with |- ?x = Raise ValueError -> False => change (accepts x) end.
  apply accepts_bind; [apply accepts_get|]. intros version.
  apply accepts_bind; [apply accepts_parse_warning_wordpress|]. intros wp.
  cbv zeta.
  apply accepts_bind; [apply accepts_get|]. intros mt.
  apply accepts_bind; [apply accepts_parse_warning_theme_or_plugin|]. intros mtw.
  apply accepts_bind; [apply accepts_get|]. intros plugins.
  apply accepts_bind; [apply accepts_iter|]. intros slugs.
  apply accepts_bind; [|intros; apply accepts_ok].
  apply accepts_for_each. intros s x. apply accepts_plugin_step.
Qed.

Ltac open_bind H :=
  match type of H with
  | bind ?r _ = Ok _ =>
      let E := fresh "E" in destruct r eqn:E; [cbn [bind] in H | discriminate H]
  | (if ?c then _ else _) = Ok _ =>
      let E := fresh "E" in destruct c eqn:E; try discriminate H
  end.

(** X12: A parsed report never has infos or alerts: [parse_json] fills the
    warning bucket only. *)
Theorem parse_json_only_warns (data : pyval) (infos warnings alerts : list string) :
  parse_json data = Ok (infos, warnings, alerts) ->
  infos = [] /\ alerts = [].
Proof.
  unfold parse_json. intros H. repeat open_bind H. cbv zeta in H.
  repeat open_bind H. injection H as <- _ <-. now split.
Qed.

(** X12 at a concrete input. *)
Lemma parse_json_only_warns_witness :
  exists infos warnings alerts,
    parse_json plugin_report = Ok (infos, warnings, alerts) /\
    List.length warnings = 1 /\ infos = [] /\ alerts = [].
Proof.
  assert (exists w, parse_json plugin_report = Ok ([], [w], [])) as [w H]
    by (eexists; vm_compute; reflexivity).
  exists [], [w], []. split; [exact H|]. split; [reflexivity|].
  exact (parse_json_only_warns plugin_report [] [w] [] H).
Defined.

(** X13: A report whose [version] section is a non-empty mapping with a status
    other than ``insecure'' cannot be parsed: [parse_json] raises
    [UnboundLocalError]. *)
Theorem parse_json_secure_version_fails (d vd : list (string * pyval)) :
  truthy (value_of "target_url" d) = true ->
  lookup "version" d = Some (PDict vd) ->
  vd <> [] ->
  eq_str (value_of "status" vd) "insecure" = false ->
  parse_json (PDict d) = Raise UnboundLocalError.
Proof.
  intros Hurl Hv Hne Hst. unfold parse_json, value_of in *.
  destruct d as [|p d]; [discriminate|].
  change (truthy (PDict (p :: d))) with true. cbv [negb].
  set (r := p :: d) in *. cbn [contains_str bind getitem].
  destruct (lookup "target_url" r) as [url|]; [|discriminate].
  cbn [negb bind]. rewrite Hurl. cbn [negb]. unfold get at 1. rewrite Hv.
  cbn [bind]. unfold parse_warning_wordpress.
  destruct vd as [|q vd]; [contradiction|].
  change (truthy (PDict (q :: vd))) with true. cbv [negb]. unfold get at 1.
  cbn [bind]. rewrite Hst. reflexivity.
Qed.

(** X13 at a concrete input. *)
Lemma parse_json_secure_version_fails_witness :
  truthy (value_of "target_url"
            [("target_url", PStr "http://x");
             ("version", PDict [("number", PStr "5.4"); ("status", PStr "latest")])])
  = true /\
  parse_json latest_report = Raise UnboundLocalError.
Proof.
  split; [reflexivity|].
  apply (parse_json_secure_version_fails _
           [("number", PStr "5.4"); ("status", PStr "latest")]);
    [reflexivity | reflexivity | discriminate | reflexivity].
Defined.

End JsonShape.

(** ** The two renderings of a warning *)

Section WarningPaths.
Import PyStr PyVal JsonReport Shape Samples.

Lemma get_value_of (d : list (string * pyval)) (k : string) :
  get (PDict d) k PNone = Ok (value_of k d).
Proof. reflexivity. Qed.

Lemma getitem_present (d : list (string * pyval)) (k : string) :
  has_key k d = true -> getitem (PDict d) (PStr k) = Ok (value_of k d).
Proof.
  unfold has_key, value_of, getitem. destruct (lookup k d); [reflexivity|discriminate].
Qed.

Lemma contains_str_key (d : list (string * pyval)) (k : string) :
  contains_str k (PDict d) = Ok (has_key k d).
Proof. reflexivity. Qed.

Lemma truthy_present (d : list (string * pyval)) (k : string) :
  truthy (value_of k d) = true -> has_key k d = true.
Proof.
  unfold value_of, has_key. destruct (lookup k d); [reflexivity|discriminate].
Qed.

Lemma parse_confidence_dict (d : list (string * pyval)) :
  parse_confidence (PDict d) = Ok (labelled_key "Confidence: " "confidence" d).
Proof.
  unfold parse_confidence, labelled_key. rewrite contains_str_key. cbn [bind].
  destruct (has_key "confidence" d) eqn:E; [|reflexivity].
  now rewrite (getitem_present _ _ E).
Qed.

(** What [parse_warning_theme_or_plugin] computes on a non-empty mapping. *)
Lemma theme_or_plugin_dict (d : list (string * pyval)) :
  d <> [] ->
  parse_warning_theme_or_plugin (PDict d)
  = (issues <- issues_of d ;;
     if is_empty issues then Ok None
     else Ok (Some (((if has_key "slug" d then str (value_of "slug" d)
                      else EmptyString) ++ issues)
                    ++ (if has_key "location" d
                        then NL ++ "Location: " ++ str (value_of "location" d)
                        else EmptyString)
                    ++ labelled_key "Confidence: " "confidence" d))).
Proof.
  intros Hne. unfold parse_warning_theme_or_plugin, issues_of.
  destruct d as [|p d]; [contradiction|].
  change (truthy (PDict (p :: d))) with true. cbv [negb].
  set (r := p :: d). rewrite contains_str_key. cbn [bind].
  assert ((if has_key "slug" r
           then slug <- getitem (PDict r) (PStr "slug") ;; Ok (str slug)
           else Ok EmptyString)
          = Ok (if has_key "slug" r then str (value_of "slug" r) else EmptyString))
    as ->.
  { destruct (has_key "slug" r) eqn:E; [|reflexivity].
    now rewrite (getitem_present _ _ E). }
  cbn [bind]. rewrite get_value_of. cbn [bind].
  destruct (truthy (value_of "outdated" r)).
  - destruct (getitem (PDict r) (PStr "latest_version")) as [v|e]; [|reflexivity].
    cbn [bind]. rewrite get_value_of. cbn [bind]. rewrite get_value_of. cbn [bind].
    destruct (truthy (value_of "directory_listing" r));
      destruct (truthy (value_of "error_log_url" r)) eqn:Ee;
      try rewrite (getitem_present _ _ (truthy_present _ _ Ee));
      cbn [bind is_empty append NL]; rewrite contains_str_key; cbn [bind];
      (destruct (has_key "location" r) eqn:El;
       [rewrite (getitem_present _ _ El)|]); cbn [bind];
      rewrite parse_confidence_dict; cbn [bind append];
      rewrite ?append_assoc, ?append_empty_r; reflexivity.
  - cbn [bind]. rewrite get_value_of. cbn [bind]. rewrite get_value_of. cbn [bind].
    destruct (truthy (value_of "directory_listing" r));
      destruct (truthy (value_of "error_log_url" r)) eqn:Ee;
      try rewrite (getitem_present _ _ (truthy_present _ _ Ee));
      cbn [bind is_empty append NL]; try reflexivity;
      rewrite contains_str_key; cbn [bind];
      (destruct (has_key "location" r) eqn:El;
       [rewrite (getitem_present _ _ El)|]); cbn [bind];
      rewrite parse_confidence_dict; cbn [bind append];
      rewrite ?append_assoc, ?append_empty_r; reflexivity.
Qed.

(** X14: The older function of the report parser returns no warning for a
    non-empty finding exactly when the finding is neither outdated, nor
    listed, nor has an error log. *)
Theorem theme_or_plugin_quiet (d : list (string * pyval)) :
  d <> [] ->
  (parse_warning_theme_or_plugin (PDict d) = Ok None
   <-> truthy (value_of "outdated" d) = false /\
       truthy (value_of "directory_listing" d) = false /\
       truthy (value_of "error_log_url" d) = false).
Proof.
  intros Hne. rewrite (theme_or_plugin_dict d Hne). unfold issues_of.
  destruct (truthy (value_of "outdated" d)).
  - split; [|intros [? _]; discriminate].
    destruct (getitem (PDict d) (PStr "latest_version")); discriminate.
  - cbn [bind append].
    destruct (truthy (value_of "directory_listing" d));
      destruct (truthy (value_of "error_log_url" d)); cbn [is_empty append NL];
      split; try discriminate; try tauto;
      intros (? & ? & ?); discriminate.
Qed.

(** X14 at a concrete input. *)
Lemma theme_or_plugin_quiet_witness :
  [("slug", PStr "bar"); ("outdated", PBool false)] <> [] /\
  parse_warning_theme_or_plugin
    (PDict [("slug", PStr "bar"); ("outdated", PBool false)]) = Ok None.
Proof.
  split; [discriminate|].
  apply (proj2 (theme_or_plugin_quiet
                  [("slug", PStr "bar"); ("outdated", PBool false)]
                  ltac:(discriminate))).
  repeat split.
Defined.

(** X15: For a finding with a text for slug, no confidence, a location that is
    absent or not empty and a latest version when it is outdated, and for an
    item object with the attributes of that finding, the older function
    returns on the finding the text of the warning that [_get_warnings]
    returns on the object, and [None] when the object returns no warning. *)
Theorem plugin_warning_paths_agree
  (d : list (string * pyval)) (item : WPItem.t) (s : string) :
  item_of d item ->
  lookup "slug" d = Some (PStr s) ->
  has_key "confidence" d = false ->
  (has_key "location" d = true -> truthy (value_of "location" d) = true) ->
  (truthy (value_of "outdated" d) = true -> has_key "latest_version" d = true) ->
  exists r,
    parse_warning_theme_or_plugin (PDict d) = Ok r /\
    WPItem._get_warnings item
    = Ok (match r with Some t => [PStr t] | None => [] end).
Proof.
  intros (Es & El & Ev & Eo & Ed & Ee) Hslug Hconf Hloc Hlatest.
  assert (d <> []) as Hne by (intros ->; discriminate).
  assert (has_key "slug" d = true) as Hs by (unfold has_key; now rewrite Hslug).
  assert (value_of "slug" d = PStr s) as Hvs by (unfold value_of; now rewrite Hslug).
  assert (issues_of d = Ok (WPItem.issue_data item)) as Hissues.
  { unfold issues_of, WPItem.issue_data. rewrite Eo, Ed, Ee, Ev.
    destruct (truthy (value_of "outdated" d)); [|reflexivity].
    now rewrite (getitem_present _ _ (Hlatest eq_refl)). }
  rewrite (theme_or_plugin_dict d Hne), Hissues. cbn [bind].
  unfold WPItem._get_warnings, labelled_key. rewrite Hconf, Hs, Hvs, Es, Hvs, El.
  destruct (is_empty (WPItem.issue_data item)); [now exists None|].
  cbn [iadd_str bind]. eexists; split; [reflexivity|].
  destruct (has_key "location" d) eqn:Hl.
  - rewrite (Hloc eq_refl). cbn [iadd_str bind str].
    now rewrite append_empty_r.
  - assert (value_of "location" d = PNone) as ->.
    { unfold has_key, value_of in *. now destruct (lookup "location" d). }
    cbn [truthy bind str]. now rewrite !append_empty_r.
Qed.

(** X15 at a concrete input. *)
Lemma plugin_warning_paths_agree_witness :
  item_of versioned_plugin versioned_item /\
  exists t,
    parse_warning_theme_or_plugin (PDict versioned_plugin) = Ok (Some t) /\
    WPItem._get_warnings versioned_item = Ok [PStr t].
Proof.
  assert (item_of versioned_plugin versioned_item) as Hi by (repeat split).
  split; [exact Hi|].
  destruct (plugin_warning_paths_agree versioned_plugin versioned_item "foo" Hi
              eq_refl eq_refl (fun _ => eq_refl) (fun _ => eq_refl))
    as (r & Hold & Hnew).
  assert (exists t, r = Some t) as [t ->].
  { revert Hold. vm_compute. intros H. injection H as <-. now eexists. }
  exists t. auto.
Defined.

End WarningPaths.

Section VersionPaths.
Import PyStr PyVal JsonReport Shape Samples.

(** X16: The two renderings of the WordPress version, on a version section and
    on a version object with the attributes of that section.  On an insecure
    version that gives its number and release date and no confidence they
    agree: the object warns the text of the older function behind its label.
    On any other status they part: the object warns nothing, the older
    function raises [UnboundLocalError]. *)
Theorem version_warning_paths (d : list (string * pyval)) (v : WPVersion.t) :
  version_of d v ->
  d <> [] ->
  (eq_str (value_of "status" d) "insecure" = true ->
   has_key "number" d = true -> has_key "release_date" d = true ->
   has_key "confidence" d = false ->
   exists t,
     parse_warning_wordpress (PDict d) = Ok (Some t) /\
     WPVersion.get_warnings v = ["Wordpress Version Warning: " ++ t]) /\
  (eq_str (value_of "status" d) "insecure" = false ->
   parse_warning_wordpress (PDict d) = Raise UnboundLocalError /\
   WPVersion.get_warnings v = []).
Proof.
  intros (En & Er & Es) Hne.
  unfold parse_warning_wordpress, WPVersion.get_warnings. rewrite En, Er, Es.
  destruct d as [|p d]; [contradiction|].
  change (truthy (PDict (p :: d))) with true. cbv [negb].
  set (r := p :: d) in *. rewrite get_value_of. cbn [bind].
  split.
  - intros Hst Hn Hr Hc. rewrite Hst, (getitem_present _ _ Hn). cbn [bind].
    rewrite (getitem_present _ _ Hr). cbn [bind].
    rewrite parse_confidence_dict. unfold labelled_key. rewrite Hc. cbn [bind].
    eexists; split; [reflexivity|]. now rewrite append_empty_r.
  - intros Hst. rewrite Hst. now split.
Qed.

(** X16 at a concrete input. *)
Lemma version_warning_paths_witness :
  version_of insecure_version insecure_object /\
  exists t,
    parse_warning_wordpress (PDict insecure_version) = Ok (Some t) /\
    WPVersion.get_warnings insecure_object = ["Wordpress Version Warning: " ++ t].
Proof.
  assert (version_of insecure_version insecure_object) as Hv by (repeat split).
  split; [exact Hv|].
  exact (proj1 (version_warning_paths insecure_version insecure_object Hv
                  ltac:(discriminate))
           eq_refl eq_refl eq_refl eq_refl).
Defined.

End VersionPaths.

(** ** The other sections of the report *)

Section Sections.
Import PyStr PyVal JsonReport JsonMisc Shape Samples.

(** X17: A section of a report that is a mapping: a missing section gives no
    message, a section that is a list gives one message for each element, the
    title before its text, and a section that is null raises [TypeError]. *)
Theorem wrap_parse_simple_values_sections
  (d : list (string * pyval)) (section title : string) :
  (lookup section d = None ->
   wrap_parse_simple_values (PDict d) section title = Ok []) /\
  (forall l, lookup section d = Some (PList l) ->
             wrap_parse_simple_values (PDict d) section title
             = Ok (map (fun val => title ++ str val) l)) /\
  (lookup section d = Some PNone ->
   wrap_parse_simple_values (PDict d) section title = Raise TypeError).
Proof.
  unfold wrap_parse_simple_values, check_valid_section. cbn [contains_str bind getitem].
  repeat split.
  - intros ->. reflexivity.
  - intros l ->. reflexivity.
  - intros ->. reflexivity.
Qed.

(** X17 at a concrete input. *)
Lemma wrap_parse_simple_values_sections_witness :
  lookup "users" [("users", PList [PStr "admin"; PStr "bob"])]
  = Some (PList [PStr "admin"; PStr "bob"]) /\
  wrap_parse_simple_values (PDict [("users", PList [PStr "admin"; PStr "bob"])])
    "users" "WordPress user found: "
  = Ok ["WordPress user found: admin"; "WordPress user found: bob"].
Proof.
  split; [reflexivity|].
  exact (proj1 (proj2 (wrap_parse_simple_values_sections
                         [("users", PList [PStr "admin"; PStr "bob"])]
                         "users" "WordPress user found: ")) _ eq_refl).
Defined.

(** X18: The banner whose version is a text gives one message for each character
    of the version, not one message for the version. *)
Theorem parse_banner_spells_version
  (d b : list (string * pyval)) (version : string) :
  lookup "banner" d = Some (PDict b) ->
  lookup "version" b = Some (PStr version) ->
  parse_banner (PDict d)
  = Ok (map (fun c => "Scanned with WPScan version: " ++ c) (chars version)).
Proof.
  intros Hb Hv. unfold parse_banner, wrap_parse_simple_values, check_valid_section.
  cbn [contains_str bind getitem]. rewrite Hb. cbn [bind negb getitem contains_str].
  rewrite Hv. cbn [bind iter]. now rewrite map_map.
Qed.

(** X18 at a concrete input. *)
Lemma parse_banner_spells_version_witness :
  lookup "banner" [("banner", PDict [("version", PStr "3.8")])]
  = Some (PDict [("version", PStr "3.8")]) /\
  parse_banner (PDict [("banner", PDict [("version", PStr "3.8")])])
  = Ok ["Scanned with WPScan version: 3"; "Scanned with WPScan version: .";
        "Scanned with WPScan version: 8"].
Proof.
  split; [reflexivity|].
  exact (parse_banner_spells_version [("banner", PDict [("version", PStr "3.8")])]
           [("version", PStr "3.8")] "3.8" eq_refl eq_refl).
Defined.

Lemma parse_target_present (d : list (string * pyval)) :
  has_key "target_url" d = true -> has_key "effective_url" d = true ->
  parse_target (PDict d)
  = Ok ["Target URL: " ++ str (value_of "target_url" d) ++ NL
        ++ "IP: " ++ (if has_key "target_ip" d then str (value_of "target_ip" d)
                      else "?") ++ NL
        ++ "Effective URL: " ++ str (value_of "effective_url" d)].
Proof.
  intros Ht He. unfold parse_target. rewrite (getitem_present _ _ Ht). cbn [bind].
  rewrite contains_str_key. cbn [bind].
  destruct (has_key "target_ip" d) eqn:Ei.
  - rewrite (getitem_present _ _ Ei). cbn [bind].
    now rewrite (getitem_present _ _ He).
  - cbn [bind]. now rewrite (getitem_present _ _ He).
Qed.

(** X19: The target line needs both addresses: on a mapping with a target and an
    effective address [parse_target] returns the one line that names them,
    with a question mark for a missing IP address, and without either
    address it raises [KeyError]. *)
Theorem parse_target_line (d : list (string * pyval)) :
  (has_key "target_url" d = true -> has_key "effective_url" d = true ->
   parse_target (PDict d)
   = Ok ["Target URL: " ++ str (value_of "target_url" d) ++ NL
         ++ "IP: " ++ (if has_key "target_ip" d then str (value_of "target_ip" d)
                       else "?") ++ NL
         ++ "Effective URL: " ++ str (value_of "effective_url" d)]) /\
  (has_key "target_url" d = false \/ has_key "effective_url" d = false ->
   parse_target (PDict d) = Raise KeyError).
Proof.
  split; [apply parse_target_present|]. unfold parse_target.
  - assert (forall k, has_key k d = false -> getitem (PDict d) (PStr k) = Raise KeyError)
      as Hmiss.
    { intros k. unfold has_key, getitem. now destruct (lookup k d). }
    intros [Ht|He].
    + now rewrite (Hmiss _ Ht).
    + destruct (has_key "target_url" d) eqn:Ht; [|now rewrite (Hmiss _ Ht)].
      rewrite (getitem_present _ _ Ht). cbn [bind].
      rewrite contains_str_key. cbn [bind].
      destruct (has_key "target_ip" d) eqn:Ei.
      * rewrite (getitem_present _ _ Ei). cbn [bind]. now rewrite (Hmiss _ He).
      * cbn [bind]. now rewrite (Hmiss _ He).
Qed.

(** X19 at a concrete input. *)
Lemma parse_target_line_witness :
  has_key "target_url" [("target_url", PStr "http://x");
                        ("effective_url", PStr "http://x/")] = true /\
  parse_target target_report
  = Ok ["Target URL: http://x" ++ NL ++ "IP: ?" ++ NL ++ "Effective URL: http://x/"].
Proof.
  split; [reflexivity|].
  exact (proj1 (parse_target_line [("target_url", PStr "http://x");
                                   ("effective_url", PStr "http://x/")])
           eq_refl eq_refl).
Defined.

(** X20: [parse_findings] cannot read a finding: it returns the empty summary
    for an empty list or mapping, raises [NameError] for every list or
    mapping that holds a finding, the name [parse_vulnerability_or_finding]
    not being bound, and refuses every other value with [TypeError].  So
    [parse_misc_infos] raises [NameError] on a report with its two addresses,
    no banner and at least one interesting finding. *)
Theorem parse_findings_only_empty (d : list (string * pyval)) (findings : pyval) :
  parse_findings findings
  = match findings with
    | PList [] | PDict [] => Ok []
    | PList _ | PDict _ => Raise NameError
    | _ => Raise TypeError
    end /\
  (has_key "target_url" d = true -> has_key "effective_url" d = true ->
   has_key "banner" d = false ->
   lookup "interesting_findings" d = Some findings ->
   holds_findings findings = true ->
   parse_misc_infos (PDict d) = Raise NameError).
Proof.
  assert (parse_findings findings
          = match findings with
            | PList [] | PDict [] => Ok []
            | PList _ | PDict _ => Raise NameError
            | _ => Raise TypeError
            end) as Hf.
  { destruct findings as [| | | |l|l]; try reflexivity; destruct l; reflexivity. }
  split; [exact Hf|].
  intros Ht He Hb Hi Hh. unfold parse_misc_infos.
  rewrite (parse_target_present d Ht He). cbn [bind].
  unfold parse_banner, check_valid_section.
  rewrite !contains_str_key, Hb. cbn [bind negb].
  assert (has_key "interesting_findings" d = true) as Hk
    by (unfold has_key; now rewrite Hi).
  rewrite Hk. unfold getitem. rewrite Hi. cbn [bind].
  rewrite Hf.
  destruct findings as [| | | |l|l]; try discriminate Hh;
    destruct l; try discriminate Hh; reflexivity.
Qed.

(** X21: For a report that holds its target and effective addresses and none of
    the sections [banner], [interesting_findings] and [users], the infos of
    [parse_misc_infos] are the target line alone. *)
Theorem parse_misc_infos_target_only (d : list (string * pyval)) :
  has_key "target_url" d = true -> has_key "effective_url" d = true ->
  has_key "banner" d = false -> has_key "interesting_findings" d = false ->
  has_key "users" d = false ->
  parse_misc_infos (PDict d) = parse_target (PDict d).
Proof.
  intros Ht He Hb Hi Hu. unfold parse_misc_infos.
  rewrite (parse_target_present d Ht He). cbn [bind].
  unfold parse_banner, wrap_parse_simple_values, check_valid_section.
  rewrite !contains_str_key, Hb, Hi, Hu. cbn [bind negb]. reflexivity.
Qed.

End Sections.

Section SectionsWitness.
Import PyStr PyVal JsonReport JsonMisc Shape Samples.

(** X20 at a concrete input. *)
Lemma parse_findings_only_empty_witness :
  lookup "interesting_findings" findings_report
  = Some (PList [PDict [("to_s", PStr "http://x/robots.txt")]]) /\
  parse_findings (PList [PDict [("to_s", PStr "http://x/robots.txt")]])
  = Raise NameError /\
  parse_misc_infos (PDict findings_report) = Raise NameError.
Proof.
  split; [reflexivity|].
  destruct (parse_findings_only_empty findings_report
              (PList [PDict [("to_s", PStr "http://x/robots.txt")]])) as [Hf Hm].
  split; [exact Hf|].
  exact (Hm eq_refl eq_refl eq_refl eq_refl eq_refl).
Defined.

(** X21 at a concrete input. *)
Lemma parse_misc_infos_target_only_witness :
  has_key "target_url" [("target_url", PStr "http://x");
                        ("effective_url", PStr "http://x/")] = true /\
  parse_misc_infos target_report
  = Ok ["Target URL: http://x" ++ NL ++ "IP: ?" ++ NL ++ "Effective URL: http://x/"].
Proof.
  split; [reflexivity|].
  exact (parse_misc_infos_target_only
           [("target_url", PStr "http://x"); ("effective_url", PStr "http://x/")]
           eq_refl eq_refl eq_refl eq_refl eq_refl).
Defined.

End SectionsWitness.

(** ** The finding hierarchy, in general *)

Section HierarchyShape.
Import PyStr PyVal Shape Samples MoreSamples Inputs.

(** X22: A vulnerability whose title is neither a text nor a list cannot be
    rendered: [get_alerts] raises [TypeError], whatever its other fields. *)
Theorem vulnerability_needs_title (v : Vulnerability.t) :
  match Vulnerability.title v with
  | PStr _ | PList _ => True
  | _ => Vulnerability.get_alerts v = Raise TypeError
  end.
Proof.
  unfold Vulnerability.get_alerts.
  destruct (Vulnerability.title v); auto;
    destruct (truthy (Vulnerability.cvss v));
    destruct (truthy (Vulnerability.fixed_in v)); reflexivity.
Qed.

Lemma vulnerability_singleton (v : Vulnerability.t) (l : list pyval) :
  Vulnerability.get_alerts v = Ok l -> exists a, l = [a].
Proof.
  unfold Vulnerability.get_alerts. intros H.
  repeat match type of H with
         | bind ?r _ = Ok _ => destruct r; [cbn [bind] in H | discriminate H]
         end.
  injection H as <-. now eexists.
Qed.

Lemma finding_alerts_from (vs : list Vulnerability.t) (acc r : list pyval) :
  for_each vs
    (fun alerts v => a <- Vulnerability.get_alerts v ;; Ok (alerts ++ a)%list) acc
  = Ok r
  <-> exists alerts,
      r = (acc ++ alerts)%list /\
      Forall2 (fun v a => Vulnerability.get_alerts v = Ok [a]) vs alerts.
Proof.
  revert acc; induction vs as [|v vs IH]; intros acc; simpl.
  - split.
    + intros H. injection H as <-. exists []. split; [now rewrite app_nil_r|constructor].
    + intros (alerts & -> & H). inversion H. now rewrite app_nil_r.
  - split.
    + intros H. destruct (Vulnerability.get_alerts v) as [l|] eqn:E; [|discriminate].
      cbn [bind] in H. destruct (vulnerability_singleton v l E) as [a ->].
      apply IH in H. destruct H as (alerts & -> & H).
      exists (a :: alerts). split; [now rewrite <- app_assoc|].
      now constructor.
    + intros (alerts & -> & H). inversion H as [|? a ? alerts' Ha Hrest]; subst.
      rewrite Ha. cbn [bind]. apply IH. exists alerts'.
      split; [now rewrite <- app_assoc | exact Hrest].
Qed.

(** X23: The alerts of a finding are the alerts of its vulnerabilities, one for
    each, in order; the finding has alerts exactly when every vulnerability
    renders. *)
Theorem finding_alerts_one_each (f : Finding.t) (alerts : list pyval) :
  Finding.get_alerts f = Ok alerts
  <-> Forall2 (fun v a => Vulnerability.get_alerts v = Ok [a])
        (Finding.vulnerabilities f) alerts.
Proof.
  unfold Finding.get_alerts. rewrite finding_alerts_from. simpl. split.
  - now intros (a & -> & H).
  - intros H. now exists alerts.
Qed.

(** X24: No object of the hierarchy can be built: the constructor of a
    vulnerability, a finding, a version of an item, an item, a plugin, a
    timthumb, a WordPress version, a database export and the notice of an
    unfinished configuration raises [TypeError] whatever the data, before it
    reads any key of it. *)
Theorem constructors_raise (data url : pyval) :
  Vulnerability.init data = Raise TypeError /\
  Finding.init data = Raise TypeError /\
  WPItemVersion.init data = Raise TypeError /\
  WPItem.init data = Raise TypeError /\
  Plugin.init data = Raise TypeError /\
  Timthumb.init data = Raise TypeError /\
  WPVersion.init data = Raise TypeError /\
  DBExport.init url data = Raise TypeError /\
  NotFullyConfigured.init data = Raise TypeError.
Proof. repeat split. Qed.

(** *** The calls that a method repeats *)

Lemma iadd_tracks (a b : pyval) (s : string) :
  kind_of a = kind_of b -> tracks a b (iadd_str a s) (iadd_str b s).
Proof. destruct a; destruct b; simpl; intros H; try discriminate H; auto. Qed.

Lemma for_each_tracks {A : Type} (body : pyval -> A -> result pyval) (l : list A) :
  (forall a b x, kind_of a = kind_of b -> tracks a b (body a x) (body b x)) ->
  forall a b, kind_of a = kind_of b -> tracks a b (for_each l body a) (for_each l body b).
Proof.
  intros Hb; induction l as [|x l IH]; intros a b H; simpl; [now split|].
  pose proof (Hb a b x H) as Hx.
  destruct (body a x) as [a'|e1]; destruct (body b x) as [b'|e2]; simpl in *;
    try contradiction; [|exact Hx].
  destruct Hx as [Ha Hb'].
  assert (kind_of a' = kind_of b') as H' by congruence.
  pose proof (IH a' b' H') as Hr. unfold tracks in *.
  destruct (for_each l body a'); destruct (for_each l body b'); try contradiction;
    [|exact Hr].
  destruct Hr; split; congruence.
Qed.

Lemma add_reference_tracks (references ref a b : pyval) :
  kind_of a = kind_of b ->
  tracks a b (Vulnerability.add_reference references a ref)
             (Vulnerability.add_reference references b ref).
Proof.
  intros H. unfold Vulnerability.add_reference.
  destruct (getitem references ref) as [links|e]; [|reflexivity]. cbn [bind].
  destruct (iter links) as [l|e]; [|reflexivity]. cbn [bind].
  destruct (eq_str ref "cve"); [|destruct (eq_str ref "wpvulndb")];
    apply for_each_tracks; try exact H; intros a0 b0 x H0;
    try (apply iadd_tracks; exact H0).
  destruct (title_of ref); cbn [bind]; [apply iadd_tracks; exact H0 | reflexivity].
Qed.

(** The rendering of a vulnerability with another title of the same kind
    fails alike, or both return one alert of the kind of their title. *)
Lemma get_alerts_tracks (v : Vulnerability.t) (t : pyval) :
  kind_of (Vulnerability.title v) = kind_of t ->
  match Vulnerability.get_alerts v,
        Vulnerability.get_alerts (Vulnerability.with_title t v) with
  | Ok [a], Ok [b] => kind_of a = kind_of (Vulnerability.title v) /\ kind_of b = kind_of t
  | Raise e1, Raise e2 => e1 = e2
  | _, _ => False
  end.
Proof.
  intros H. unfold Vulnerability.get_alerts.
  cbn [Vulnerability.with_title Vulnerability.title Vulnerability.cvss
       Vulnerability.fixed_in Vulnerability.references].
  set (a0 := Vulnerability.title v) in *.
  assert (tracks a0 t
            (if truthy (Vulnerability.cvss v)
             then iadd_str a0 (NL ++ "CVSS: " ++ str (Vulnerability.cvss v))
             else Ok a0)
            (if truthy (Vulnerability.cvss v)
             then iadd_str t (NL ++ "CVSS: " ++ str (Vulnerability.cvss v))
             else Ok t)) as H1.
  { destruct (truthy (Vulnerability.cvss v)); [now apply iadd_tracks | now split]. }
  destruct (if truthy (Vulnerability.cvss v) then iadd_str a0 _ else Ok a0) as [a1|e1];
    destruct (if truthy (Vulnerability.cvss v) then iadd_str t _ else Ok t) as [b1|e2];
    simpl in H1; try contradiction; [|exact H1].
  destruct H1 as [Ha1 Hb1]. cbn [bind].
  assert (kind_of a1 = kind_of b1) as K1 by congruence.
  assert (tracks a1 b1
            (if truthy (Vulnerability.fixed_in v)
             then iadd_str a1 (NL ++ "Fixed in: " ++ str (Vulnerability.fixed_in v))
             else iadd_str a1 (NL ++ "Not fixed yet"))
            (if truthy (Vulnerability.fixed_in v)
             then iadd_str b1 (NL ++ "Fixed in: " ++ str (Vulnerability.fixed_in v))
             else iadd_str b1 (NL ++ "Not fixed yet"))) as H2.
  { destruct (truthy (Vulnerability.fixed_in v)); now apply iadd_tracks. }
  destruct (if truthy (Vulnerability.fixed_in v) then iadd_str a1 _ else iadd_str a1 _)
    as [a2|e1];
    destruct (if truthy (Vulnerability.fixed_in v) then iadd_str b1 _ else iadd_str b1 _)
      as [b2|e2];
    simpl in H2; try contradiction; [|exact H2].
  destruct H2 as [Ha2 Hb2]. cbn [bind].
  assert (kind_of a2 = kind_of b2) as K2 by congruence.
  destruct (truthy (Vulnerability.references v)).
  - pose proof (iadd_tracks a2 b2 (NL ++ "References: ") K2) as H3.
    destruct (iadd_str a2 _) as [a3|e1]; destruct (iadd_str b2 _) as [b3|e2];
      simpl in H3; try contradiction; [|exact H3].
    destruct H3 as [Ha3 Hb3]. cbn [bind].
    destruct (iter (Vulnerability.references v)) as [refs|e]; [|reflexivity].
    cbn [bind].
    assert (kind_of a3 = kind_of b3) as K3 by congruence.
    pose proof (for_each_tracks
                  (Vulnerability.add_reference (Vulnerability.references v)) refs
                  (fun a b x => add_reference_tracks _ x a b) a3 b3 K3) as H4.
    destruct (for_each refs _ a3) as [a4|e1]; destruct (for_each refs _ b3) as [b4|e2];
      simpl in H4; try contradiction; [|exact H4].
    destruct H4. cbn [bind]. split; congruence.
  - cbn [bind]. split; congruence.
Qed.

(** A vulnerability that rendered once renders again. *)
Lemma rendered_renders (v : Vulnerability.t) (a : pyval) :
  Vulnerability.get_alerts v = Ok [a] ->
  exists a', Vulnerability.get_alerts (Vulnerability.rendered v) = Ok [a'].
Proof.
  intros H. unfold Vulnerability.rendered. rewrite H.
  destruct (Vulnerability.title v) eqn:T; try (now exists a).
  pose proof (get_alerts_tracks v (Vulnerability.title v) eq_refl) as Hk.
  rewrite H in Hk.
  assert (kind_of a = 1) as Ka.
  { destruct (Vulnerability.get_alerts (Vulnerability.with_title _ v)) as [[|b [|]]|];
      try contradiction. rewrite T in Hk. now destruct Hk. }
  assert (kind_of (Vulnerability.title v) = kind_of a) as K by (now rewrite T, Ka).
  pose proof (get_alerts_tracks v a K) as Hk'. rewrite H in Hk'.
  destruct (Vulnerability.get_alerts (Vulnerability.with_title a v)) as [[|b [|]]|];
    try contradiction.
  now exists b.
Qed.

Lemma finding_rendered_renders (f : Finding.t) (l : list pyval) :
  Finding.get_alerts f = Ok l ->
  exists l', Finding.get_alerts (Finding.rendered f) = Ok l' /\
             List.length l' = List.length l.
Proof.
  unfold Finding.get_alerts. cbn [Finding.rendered Finding.vulnerabilities].
  intros H. apply finding_alerts_from in H. destruct H as (alerts & -> & H).
  simpl.
  assert (exists l', Forall2 (fun v a => Vulnerability.get_alerts v = Ok [a])
                       (map Vulnerability.rendered (Finding.vulnerabilities f)) l' /\
                     List.length l' = List.length alerts) as (l' & Hl' & Hlen).
  { induction H as [|v a vs alerts' Hv _ IH]; [exists []; split; [constructor|reflexivity]|].
    destruct IH as (l' & Hl' & Hlen). destruct (rendered_renders v a Hv) as [a' Ha'].
    exists (a' :: l'). split; [now constructor | simpl; now rewrite Hlen]. }
  exists l'. split; [|exact Hlen].
  apply finding_alerts_from. now exists l'.
Qed.

(** An item that returned alerts returns as many when it is asked again. *)
Lemma item_rendered_renders (item : WPItem.t) (l : list pyval) :
  WPItem.get_alerts item = Ok l ->
  exists l', WPItem.get_alerts (WPItem.rendered item) = Ok l' /\
             List.length l' = List.length l.
Proof.
  unfold WPItem.get_alerts, obj_truthy, WPItemVersion.get_alerts.
  cbn [WPItem.rendered WPItem.finding WPItem.version WPItemVersion.rendered
       WPItemVersion.finding].
  destruct (Finding.get_alerts (WPItem.finding item)) as [a|] eqn:Ea; [|discriminate].
  cbn [bind].
  destruct (Finding.get_alerts (WPItemVersion.finding (WPItem.version item)))
    as [v|] eqn:Ev; [|discriminate].
  cbn [bind]. intros H. injection H as <-.
  destruct (finding_rendered_renders _ _ Ea) as (a' & -> & Ha).
  destruct (finding_rendered_renders _ _ Ev) as (v' & -> & Hv).
  cbn [bind]. eexists; split; [reflexivity|].
  now rewrite !length_app, Ha, Hv.
Qed.

(** An item that returned a warning returns one when it is asked again. *)
Lemma item_warned_warns (item : WPItem.t) (w : pyval) (ws : list pyval) :
  WPItem.get_warnings item = Ok (w :: ws) ->
  exists w', WPItem.get_warnings (WPItem.warned item) = Ok [w'].
Proof.
  rewrite !item_warnings_are_issue_warnings. intros H.
  assert (is_empty (WPItem.issue_data item) = false) as E.
  { unfold WPItem._get_warnings in H.
    destruct (is_empty (WPItem.issue_data item)); [discriminate | reflexivity]. }
  assert (forall s, WPItem.issue_data (WPItem.with_slug s item) = WPItem.issue_data item)
    as Hi by reflexivity.
  destruct (WPItem.slug item) eqn:S;
    try (unfold WPItem._get_warnings in H; rewrite S, E in H; discriminate H).
  - unfold WPItem.warned. rewrite S.
    unfold WPItem._get_warnings in *. rewrite S, E in *. cbn [iadd_str bind] in *.
    destruct (truthy (WPItem.location item)); cbn [iadd_str bind] in *; now eexists.
  - assert (exists l', WPItem._get_warnings item = Ok [PList l']) as [l' Hl'].
    { unfold WPItem._get_warnings. rewrite S, E. cbn [iadd_str bind].
      destruct (truthy (WPItem.location item)); cbn [iadd_str bind]; now eexists. }
    unfold WPItem.warned. rewrite S, Hl'.
    unfold WPItem._get_warnings. rewrite Hi, E.
    cbn [WPItem.with_slug WPItem.slug WPItem.location iadd_str bind].
    destruct (truthy (WPItem.location item)); cbn [iadd_str bind]; now eexists.
Qed.

Lemma length_cons_S {A : Type} (l l' : list A) (x : A) (xs : list A) :
  l = x :: xs -> List.length l' = List.length l -> exists n, List.length l' = S n.
Proof. intros -> H. simpl in H. eexists. exact H. Qed.

(** X26: A plugin, a theme or a main theme whose item has a warning,
    respectively an alert, to report returns no list: the method that labels
    the messages raises [TypeError], the element expression of its
    comprehension asking for [super()]. *)
Theorem labelled_messages_raise (item : WPItem.t) (theme : Theme.t) :
  (forall w ws, WPItem.get_warnings item = Ok (w :: ws) ->
                Plugin.get_warnings item = Raise TypeError) /\
  (forall a rest, WPItem.get_alerts item = Ok (a :: rest) ->
                  Plugin.get_alerts item = Raise TypeError) /\
  (forall w ws, WPItem.get_warnings (Theme.item theme) = Ok (w :: ws) ->
                Theme.get_warnings theme = Raise TypeError /\
                MainTheme.get_warnings theme = Raise TypeError) /\
  (forall a rest, WPItem.get_alerts (Theme.item theme) = Ok (a :: rest) ->
                  Theme.get_alerts theme = Raise TypeError /\
                  MainTheme.get_alerts theme = Raise TypeError).
Proof.
  assert (forall i w ws,
             WPItem.get_warnings i = Ok (w :: ws) ->
             forall prefix,
               (w0 <- WPItem.get_warnings i ;;
                if WPItem.nonempty w0 then
                  w1 <- WPItem.get_warnings (WPItem.warned i) ;;
                  l <- labelled_by_index prefix WPItem.get_warnings
                         (WPItem.warned (WPItem.warned i)) (List.length w1) ;;
                  Ok (Some l)
                else Ok None) = Raise TypeError) as Hw.
  { intros i w ws H prefix. destruct (item_warned_warns i w ws H) as [w' H'].
    rewrite H. cbn [bind WPItem.nonempty]. rewrite H'. reflexivity. }
  assert (forall i a rest,
             WPItem.get_alerts i = Ok (a :: rest) ->
             forall prefix,
               (a0 <- WPItem.get_alerts i ;;
                if WPItem.nonempty a0 then
                  a1 <- WPItem.get_alerts (WPItem.rendered i) ;;
                  l <- labelled_by_index prefix WPItem.get_alerts
                         (WPItem.rendered (WPItem.rendered i)) (List.length a1) ;;
                  Ok (Some l)
                else Ok None) = Raise TypeError) as Ha.
  { intros i a rest H prefix.
    destruct (item_rendered_renders i _ H) as (l' & H' & Hlen).
    rewrite H. cbn [bind WPItem.nonempty]. rewrite H'. cbn [bind].
    destruct (length_cons_S _ l' a rest eq_refl Hlen) as [n ->].
    reflexivity. }
  split; [|split; [|split]].
  - intros w ws H. exact (Hw item w ws H _).
  - intros a rest H. exact (Ha item a rest H _).
  - intros w ws H.
    assert (Theme.get_warnings theme = Raise TypeError) as E
      by exact (Hw (Theme.item theme) w ws H _).
    split; [exact E|]. unfold MainTheme.get_warnings. now rewrite E.
  - intros a rest H.
    assert (Theme.get_alerts theme = Raise TypeError) as E
      by exact (Ha (Theme.item theme) a rest H _).
    split; [exact E|]. unfold MainTheme.get_alerts. now rewrite E.
Qed.

(** X26 at a concrete input. *)
Lemma labelled_messages_raise_witness :
  WPItem.get_warnings unversioned_item
  = Ok [PStr ("foo" ++ NL ++ "The version is out of date, the latest version is 2.0")] /\
  WPItem.get_alerts unversioned_item
  = Ok [PStr ("Foo 1.0 - Stored XSS" ++ NL ++ "Not fixed yet")] /\
  Plugin.get_warnings unversioned_item = Raise TypeError /\
  Plugin.get_alerts unversioned_item = Raise TypeError.
Proof.
  split; [reflexivity|]. split; [reflexivity|].
  destruct (labelled_messages_raise unversioned_item quiet_theme) as (Hw & Ha & _).
  split; [exact (Hw _ _ eq_refl) | exact (Ha _ _ eq_refl)].
Defined.

End HierarchyShape.

(** ** The informational texts *)

Section InfoShape.
Import PyStr PyVal Infos Shape Samples MoreSamples Inputs.

Lemma confirmed_loop_fails (confirmed_by : pyval) (info : string) :
  truthy confirmed_by = true ->
  exists e,
    (entries <- iter confirmed_by ;;
     for_each entries (confirmed_entry confirmed_by) info) = Raise e /\
    (e = IndexError \/ e = TypeError).
Proof.
  intros H. destruct confirmed_by as [| b | z | s | l | d]; simpl in H;
    try discriminate.
  - exists TypeError. auto.
  - exists TypeError. auto.
  - destruct s; [discriminate|]. exists IndexError. auto.
  - destruct l; [discriminate|]. exists IndexError. auto.
  - destruct d; [discriminate|]. exists IndexError. auto.
Qed.

Lemma join_v_error (sep : string) (v : pyval) (e : exn) :
  join_v sep v = Raise e -> e = TypeError.
Proof.
  unfold join_v. destruct v; simpl; try (intros H; now injection H as <-).
  - generalize (chars s). intros l.
    assert (forall l, exists r,
               map_r (fun x => match x with PStr s => Ok s | _ => Raise TypeError end)
                     (map PStr l) = Ok r) as Hok.
    { induction l0 as [|x l0 [r IH]]; simpl; [now eexists|]. rewrite IH. now eexists. }
    destruct (Hok l) as [r ->]. discriminate.
  - induction l as [|x l IH]; simpl; [discriminate|].
    destruct x; simpl; try (intros H; now injection H as <-).
    destruct (map_r _ l); simpl in *; [discriminate | exact IH].
  - generalize (map (fun p : string * pyval => PStr (fst p)) d). intros l.
    induction l as [|x l IH]; simpl; [discriminate|].
    destruct x; simpl; try (intros H; now injection H as <-).
    destruct (map_r _ l); simpl in *; [discriminate | exact IH].
Qed.

Lemma finding_infos_confirmed (f : Finding.t) :
  truthy (Finding.confirmed_by f) = true ->
  exists e, Finding_get_infos f = Raise e /\ (e = IndexError \/ e = TypeError).
Proof.
  intros H. unfold Finding_get_infos. rewrite H.
  destruct (truthy (Finding.interesting_entries f)).
  - destruct (join_v _ _) as [j|e] eqn:E.
    + cbn [bind].
      match goal with
      | |- context [for_each _ _ ?i] =>
          destruct (confirmed_loop_fails (Finding.confirmed_by f) i H) as (e & -> & He)
      end.
      now exists e.
    + exists e. split; [reflexivity|]. right. exact (join_v_error _ _ _ E).
  - cbn [bind].
    match goal with
    | |- context [for_each _ _ ?i] =>
        destruct (confirmed_loop_fails (Finding.confirmed_by f) i H) as (e & -> & He)
    end.
    now exists e.
Qed.

(** X27: A finding that records what confirmed it has no informational text:
    [Finding.get_infos] raises [IndexError] or [TypeError], and with it the
    infos of an item or of a plugin with that finding and the alert of a
    database export. *)
Theorem confirmed_finding_has_no_info (f : Finding.t) :
  truthy (Finding.confirmed_by f) = true ->
  (forall l, Finding_get_infos f <> Ok l) /\
  (forall (export : DBExport.t) l,
      DBExport.finding export = f -> DBExport.get_alerts export <> Ok l) /\
  (forall (item : WPItem.t) l,
      WPItem.finding item = f ->
      WPItem_get_infos item <> Ok l /\ forall l', Plugin_get_infos item <> Ok l').
Proof.
  intros H. destruct (finding_infos_confirmed f H) as (e & He & _).
  assert (first_info f = Raise e) as Hfirst by (unfold first_info; now rewrite He).
  split; [intros l; rewrite He; discriminate|]. split.
  - intros export l <-. unfold DBExport.get_alerts. rewrite Hfirst. discriminate.
  - intros item l <-.
    assert (forall l, WPItem_get_infos item <> Ok l) as Hitem.
    { intros l0. unfold WPItem_get_infos.
      repeat match goal with
             | |- bind (first_info _) _ <> Ok _ => rewrite Hfirst; discriminate
             | |- bind ?r _ <> Ok _ =>
                 destruct r; cbn [bind]; [|discriminate]
             end. }
    split; [apply Hitem|]. intros l'. unfold Plugin_get_infos.
    destruct (WPItem_get_infos item) as [x|]; [|discriminate].
    exfalso. exact (Hitem x eq_refl).
Qed.

(** X27 at a concrete input. *)
Lemma confirmed_finding_has_no_info_witness :
  truthy (Finding.confirmed_by confirmed_finding) = true /\
  Finding_get_infos confirmed_finding = Raise IndexError.
Proof.
  split; [reflexivity|].
  destruct (Finding_get_infos confirmed_finding) as [l|e] eqn:E.
  - exfalso. exact (proj1 (confirmed_finding_has_no_info confirmed_finding eq_refl) l E).
  - revert E. vm_compute. intros E. now injection E as <-.
Defined.

(** X28: A finding that nothing confirmed and that lists no interesting entry has
    exactly one informational text, made of who found it and how surely. *)
Theorem unconfirmed_finding_has_one_info (f : Finding.t) :
  truthy (Finding.confirmed_by f) = false ->
  truthy (Finding.interesting_entries f) = false ->
  Finding_get_infos f
  = Ok [(if truthy (Finding.found_by f)
         then "Found by: " ++ str (Finding.found_by f) else EmptyString)
        ++ (if truthy (Finding.confidence f)
            then "(confidence: " ++ str (Finding.confidence f) ++ ")"
            else EmptyString)].
Proof.
  intros Hc Hi. unfold Finding_get_infos. rewrite Hc, Hi. cbn [bind].
  destruct (truthy (Finding.found_by f)); destruct (truthy (Finding.confidence f));
    cbn [append]; rewrite ?append_assoc, ?append_empty_r; reflexivity.
Qed.

(** X28 at a concrete input. *)
Lemma unconfirmed_finding_has_one_info_witness :
  truthy (Finding.confirmed_by no_finding) = false /\
  Finding_get_infos no_finding = Ok [EmptyString].
Proof.
  split; [reflexivity|].
  exact (unconfirmed_finding_has_one_info no_finding eq_refl eq_refl).
Defined.

End InfoShape.
